(** * A model of [src/gpt.ts]: the OpenAI completion client

    The client merges three layers of request options, posts one request
    through axios, validates the response, and collects the trimmed
    completions in a [Set<string>].  The development embeds the TypeScript
    source as Rocq functions over a small model of JavaScript values, with
    an explicit process state (environment, transport, observable trace)
    threaded through a state-and-exception monad. *)

From Stdlib Require Import ZArith Ascii String PrimFloat.
From Stdlib Require FloatOps SpecFloat.
From stdpp Require Import base option list strings gmap pretty.

#[local] Set Warnings "-clear-no-such-hyp".

Local Open Scope Z_scope.

(** ** JavaScript strings *)

(** A JavaScript string is a sequence of UTF-16 code units.  Property names
    and environment variable names, which the source writes as identifiers,
    are kept as Rocq strings. *)
Definition jsstring := list N.

(** A literal of the source, all of whose characters are ASCII. *)
Definition lit (s : string) : jsstring :=
  (λ a, N_of_ascii a) <$> list_ascii_of_string s.

Arguments lit : simpl never.

(** ECMAScript [WhiteSpace] and [LineTerminator] code points: what
    [String.prototype.trim] removes. *)
Definition is_whitespace (c : N) : bool :=
  ((9 <=? c) && (c <=? 13) || (c =? 32) || (c =? 160) || (c =? 5760)
   || (8192 <=? c) && (c <=? 8202) || (c =? 8232) || (c =? 8233)
   || (c =? 8239) || (c =? 8287) || (c =? 12288) || (c =? 65279))%N.

Fixpoint trimStart (s : jsstring) : jsstring :=
  match s with
  | c :: s' => if is_whitespace c then trimStart s' else s
  | [] => []
  end.

Definition trimEnd (s : jsstring) : jsstring :=
  reverse (trimStart (reverse s)).

(** [String.prototype.trim]. *)
Definition trim (s : jsstring) : jsstring := trimEnd (trimStart s).

(** ** Numbers as text *)

(** The decimal digits of a natural number. *)
Definition decimal (z : Z) : jsstring := lit (pretty z).

Definition zeros (n : Z) : jsstring := replicate (Z.to_nat n) 48%N.

(** For the double [m * 2^e] and a decimal position [p]: the multiple
    [s * 10^p] nearest to the double among those that round to it (to
    nearest, ties to even), if there is one.  All quantities are kept as
    integers over the common denominator [4 * den]. *)
Definition shortest_at (m : positive) (e p : Z) : option Z :=
  let num := if e <? 0 then Z.pos m else Z.pos m * 2 ^ e in
  let den := if e <? 0 then 2 ^ (- e) else 1 in
  let ulp := if e <? 0 then 1 else 2 ^ e in
  let below := if (Z.pos m =? 2 ^ 52) && (-1074 <? e) then ulp else 2 * ulp in
  let lo := 4 * num - below in
  let hi := 4 * num + 2 * ulp in
  let up := if p <? 0 then 1 else 10 ^ p in
  let down := if p <? 0 then 10 ^ (- p) else 1 in
  let rounds (s : Z) : bool :=
    if Z.even (Z.pos m)
    then (lo * down <=? s * up * (4 * den)) && (s * up * (4 * den) <=? hi * down)
    else (lo * down <? s * up * (4 * den)) && (s * up * (4 * den) <? hi * down) in
  let a := num * down in
  let b := den * up in
  let s := a / b in
  let r := a mod b in
  let low_ok := (0 <? s) && rounds s in
  let high_ok := rounds (s + 1) in
  if low_ok && high_ok then
    if 2 * r <? b then Some s
    else if b <? 2 * r then Some (s + 1)
    else if Z.even s then Some s else Some (s + 1)
  else if low_ok then Some s
  else if high_ok then Some (s + 1)
  else None.

Fixpoint shortest_from (fuel : nat) (m : positive) (e p : Z) : Z * Z :=
  match fuel with
  | O => (Z.pos m, e)
  | S fuel' =>
      match shortest_at m e p with
      | Some s => (s, p)
      | None => shortest_from fuel' m e (p - 1)
      end
  end.

(** The digits [s] and the position [p] such that [s * 10^p] rounds to
    the double [m * 2^e] with as few digits as possible.  The search runs
    down from a position above the double's magnitude; seventeen digits
    always suffice, so it ends well within its sixty steps and the value
    returned when they run out is never used. *)
Definition shortest (m : positive) (e : Z) : Z * Z :=
  let bits := Z.log2 (Z.pos m) + e + 2 in
  shortest_from 60 m e (bits * 30103 / 100000 + 2).

(** The layout of [Number::toString] for the digits [s] with the decimal
    point after the [n]-th digit: plain digits up to 21 places, a leading
    [0.] down to six zeros, exponent notation beyond. *)
Definition layout (s n : Z) : jsstring :=
  let d := decimal s in
  let k := Z.of_nat (length d) in
  if (k <=? n) && (n <=? 21) then d ++ zeros (n - k)
  else if (0 <? n) && (n <=? 21) then
    take (Z.to_nat n) d ++ lit "." ++ drop (Z.to_nat n) d
  else if (-6 <? n) && (n <=? 0) then lit "0." ++ zeros (- n) ++ d
  else
    let sign := if 0 <? n - 1 then lit "+" else lit "-" in
    let power := decimal (Z.abs (n - 1)) in
    if k =? 1 then d ++ lit "e" ++ sign ++ power
    else take 1 d ++ lit "." ++ drop 1 d ++ lit "e" ++ sign ++ power.

(** [Number::toString] in radix 10: what a template literal makes of a
    number. *)
Definition number_to_string (x : float) : jsstring :=
  match FloatOps.Prim2SF x with
  | SpecFloat.S754_nan => lit "NaN"
  | SpecFloat.S754_zero _ => lit "0"
  | SpecFloat.S754_infinity negative =>
      if negative then lit "-Infinity" else lit "Infinity"
  | SpecFloat.S754_finite negative m e =>
      let '(s, p) := shortest m e in
      let text := layout s (Z.of_nat (length (decimal s)) + p) in
      if negative then lit "-" ++ text else text
  end.

(** ** JavaScript values *)

#[local] Set Warnings "-register-all".

(** The values that travel through the client: option values, and the
    JSON payload of a response.  Numbers are IEEE 754 doubles. *)
Inductive JsVal : Type :=
  | JUndefined
  | JNull
  | JBool (b : bool)
  | JNum (x : float)
  | JStr (s : jsstring)
  | JArr (xs : list JsVal)
  | JObj (props : gmap string JsVal).

(** [ToBoolean]: the test behind [!v] and [v || w]. *)
Definition truthy (v : JsVal) : bool :=
  match v with
  | JUndefined | JNull => false
  | JBool b => b
  | JNum x => negb (is_zero x || is_nan x)
  | JStr s => negb (bool_decide (s = []))
  | JArr _ | JObj _ => true
  end.

(** [v || w]. *)
Definition js_or (v w : JsVal) : JsVal := if truthy v then v else w.

(** ** Errors and abrupt completion *)

(** An [Error] object: what [throw new Error(...)], the runtime
    ([TypeError]) and axios ([AxiosError]) produce, with its [name] and its
    [message]. *)
Record JsError : Type := mkError { err_name : string; message : jsstring }.

Definition Error (msg : jsstring) : JsError := mkError "Error" msg.
Definition TypeError (msg : jsstring) : JsError := mkError "TypeError" msg.

(** What [throw] and a rejected promise carry is any value ([catch (err:
    any)]): an [Error] object, or some other value, [null] and [undefined]
    among them. *)
Inductive Thrown : Type :=
  | Raised (e : JsError)
  | RaisedValue (v : JsVal).

Coercion Raised : JsError >-> Thrown.

(** A pure step either throws or yields a value. *)
Definition Completion (A : Type) : Type := Thrown + A.

(** A pure step that throws an [Error] object. *)
Definition raise {A} (e : JsError) : Completion A := inl (Raised e).

#[export] Instance Completion_ret : MRet Completion := λ A a, inr a.
#[export] Instance Completion_bind : MBind Completion := λ A B f c,
  match c with
  | inl e => inl e
  | inr a => f a
  end.

(** [v.k], for a property name [k] that no built-in prototype defines (the
    source reads [choices], [message] and [content]): an own property of an
    object, [undefined] on any other value, and a [TypeError] on
    [undefined] and [null].  The texts of runtime errors are V8's. *)
Definition get_prop (v : JsVal) (k : string) : Completion JsVal :=
  match v with
  | JUndefined =>
      raise (TypeError (lit ("Cannot read properties of undefined (reading '"
                             +:+ k +:+ "')")))
  | JNull =>
      raise (TypeError (lit ("Cannot read properties of null (reading '"
                             +:+ k +:+ "')")))
  | JObj props => inr (default JUndefined (props !! k))
  | JBool _ | JNum _ | JStr _ | JArr _ => inr JUndefined
  end.

(** [v.trim()]: only a string has a callable [trim]; a JSON object that
    carries a [trim] property of its own holds data there, not a function. *)
Definition call_trim (v : JsVal) : Completion jsstring :=
  match v with
  | JStr s => inr (trim s)
  | JUndefined | JNull =>
      _ ← get_prop v "trim";
      raise (TypeError (lit "choice.message.content.trim is not a function"))
  | JBool _ | JNum _ | JArr _ | JObj _ =>
      raise (TypeError (lit "choice.message.content.trim is not a function"))
  end.

Definition is_high_surrogate (c : N) : bool := ((55296 <=? c) && (c <=? 56319))%N.
Definition is_low_surrogate (c : N) : bool := ((56320 <=? c) && (c <=? 57343))%N.

(** The string iterator yields code points: a surrogate pair comes out as
    one two-unit string. *)
Fixpoint code_points (s : jsstring) : list jsstring :=
  match s with
  | [] => []
  | c :: s' =>
      match s' with
      | d :: s'' =>
          if is_high_surrogate c && is_low_surrogate d
          then [c; d] :: code_points s''
          else [c] :: code_points s'
      | [] => [[c]]
      end
  end.

(** The runtime's error for a value that cannot be iterated.  V8 names the
    value by its [typeof], and for [null], booleans and numbers by the
    value too. *)
Definition not_iterable {A} (named : jsstring) : Completion A :=
  raise (TypeError
           (named
            ++ lit " is not iterable (cannot read property Symbol(Symbol.iterator))")).

(** The values a [for ... of] loop runs over: arrays and strings are the
    iterable values here. *)
Definition iterate (v : JsVal) : Completion (list JsVal) :=
  match v with
  | JArr xs => inr xs
  | JStr s => inr (JStr <$> code_points s)
  | JUndefined => not_iterable (lit "undefined")
  | JNull => not_iterable (lit "object null")
  | JBool b => not_iterable (if b then lit "boolean true" else lit "boolean false")
  | JNum x => not_iterable (lit "number " ++ number_to_string x)
  | JObj _ => not_iterable (lit "object")
  end.

(** [ToString]: what a template literal makes of a value.  An array is
    joined with commas, [null] and [undefined] elements left empty; a plain
    object reads [[object Object]], unless it holds a [toString] of its
    own, which is data and cannot be called. *)
Fixpoint to_string (v : JsVal) : Completion jsstring :=
  match v with
  | JUndefined => inr (lit "undefined")
  | JNull => inr (lit "null")
  | JBool b => inr (if b then lit "true" else lit "false")
  | JNum x => inr (number_to_string x)
  | JStr s => inr s
  | JArr xs =>
      (fix join (xs : list JsVal) : Completion jsstring :=
         match xs with
         | [] => inr []
         | x :: rest =>
             first ← match x with
                     | JUndefined | JNull => inr []
                     | _ => to_string x
                     end;
             match rest with
             | [] => inr first
             | _ :: _ => others ← join rest; inr (first ++ lit "," ++ others)
             end
         end) xs
  | JObj props =>
      match props !! "toString" with
      | Some _ =>
          raise (TypeError (lit "Cannot convert object to primitive value"))
      | None => inr (lit "[object Object]")
      end
  end.

(** [err.message], for whatever was thrown. *)
Definition thrown_message (err : Thrown) : Completion JsVal :=
  match err with
  | Raised e => inr (JStr (message e))
  | RaisedValue v => get_prop v "message"
  end.

(** The text of [${err.message}] in a template literal. *)
Definition template_message (err : Thrown) : Completion jsstring :=
  m ← thrown_message err;
  to_string m.

(** ** [Set<string>] *)

(** A JavaScript [Set] keeps its elements in insertion order, without
    duplicates; strings are compared by value. *)
Definition JsSet := list jsstring.

Definition set_add (x : jsstring) (s : JsSet) : JsSet :=
  if decide (x ∈ s) then s else s ++ [x].

(** The mathematical set of its elements. *)
Definition elements (s : JsSet) : gset jsstring := list_to_set s.

(** ** Requests, responses and the observable trace *)

(** [PostOptions]: an object whose own properties are option values. *)
Abbreviation PostOptions := (gmap string JsVal).

Definition defaultPostOptions : PostOptions :=
  {[ "max_tokens" := JNum 100%float;
     "temperature" := JNum 0%float;
     "n" := JNum 1%float;
     "top_p" := JNum 1%float;
     "stop" := JNull ]}.

(** [o.k], reading an options object. *)
Definition read (o : PostOptions) (k : string) : JsVal :=
  default JUndefined (o !! k).

(** [{...a, ...b, ...c}]: own properties are copied left to right, later
    ones overwriting earlier ones ([∪] on maps prefers its left operand). *)
Definition spread3 (a b c : PostOptions) : PostOptions := c ∪ (b ∪ a).

Record Message : Type := { role : jsstring; content : jsstring }.

Module PostBody.
Record t : Type := {
  model : jsstring;
  messages : list Message;
  max_tokens : JsVal;
  temperature : JsVal;
  n : JsVal;
  top_p : JsVal;
  stop : JsVal
}.
End PostBody.

Record Headers : Type := { Content_Type : jsstring; Authorization : jsstring }.

(** What axios hands back; [status] is the HTTP status code, an integer,
    which a template literal prints in decimal. *)
Record AxiosResponse : Type := {
  status : Z;
  statusText : jsstring;
  data : JsVal
}.

Inductive Event : Type :=
  | PerformanceMark (name : jsstring)
    (** [performance.measure("openai-query:" + JSON.stringify(label), start)]
        with [label = {...options, promptLength}], kept unserialised. *)
  | PerformanceMeasure (options : PostOptions) (promptLength : nat)
                       (startMark : jsstring)
  | HttpPost (url : jsstring) (body : PostBody.t) (headers : Headers)
  | ConsoleLog (line : jsstring)
  | ConsoleWarn (line : jsstring)
  | ConsoleError (line : jsstring).

(** The request bodies posted, and the warnings printed, along a trace. *)
Definition post_of (e : Event) : option PostBody.t :=
  match e with HttpPost _ body _ => Some body | _ => None end.

Definition warning_of (e : Event) : option jsstring :=
  match e with ConsoleWarn line => Some line | _ => None end.

Definition bodies_posted (t : list Event) : list PostBody.t := omap post_of t.
Definition warnings (t : list Event) : list jsstring := omap warning_of t.

(** ** The process monad *)

(** How a computation ends: with a value, with a thrown error, or with the
    process terminated by [process.exit]. *)
Inductive Outcome (A : Type) : Type :=
  | Ret (a : A)
  | Throw (e : Thrown)
  | Exit (code : Z).
Arguments Ret {A} a.
Arguments Throw {A} e.
Arguments Exit {A} code.

(** The outcome of a pure step. *)
Definition outcome {A} (c : Completion A) : Outcome A :=
  match c with
  | inl e => Throw e
  | inr a => Ret a
  end.

Section Client.

(** The HTTP transport and the post-processor of [./syntax] are outside
    this file.  The transport has a state of its own, so that two posts
    of one request may be answered differently; [trimCompletion] is a
    function on strings that may throw. *)
Context {World : Type}.
Variable axios_post :
  jsstring → PostBody.t → Headers → World → Completion AxiosResponse * World.
Variable trimCompletion : jsstring → Completion jsstring.

Record Process : Type := {
  env : gmap string jsstring;   (* process.env *)
  world : World;                (* the transport's state *)
  trace : list Event            (* what the process has done so far *)
}.

Definition M (A : Type) : Type := Process → Outcome A * Process.

#[export] Instance M_ret : MRet M := λ A a p, (Ret a, p).
#[export] Instance M_bind : MBind M := λ A B f c p,
  match c p with
  | (Ret a, p') => f a p'
  | (Throw e, p') => (Throw e, p')
  | (Exit code, p') => (Exit code, p')
  end.

Definition throw {A} (e : Thrown) : M A := λ p, (Throw e, p).

(** [process.exit(code)] does not return. *)
Definition process_exit {A} (code : Z) : M A := λ p, (Exit code, p).

Definition lift {A} (c : Completion A) : M A := λ p, (outcome c, p).

(** [try { body } catch (err) { handler }]. *)
Definition try_catch {A} (body : M A) (handler : Thrown → M A) : M A :=
  λ p,
    match body p with
    | (Throw e, p') => handler e p'
    | r => r
    end.

Definition emit (e : Event) : M unit := λ p,
  (Ret (), {| env := env p; world := world p; trace := trace p ++ [e] |}).

Definition performance_mark (name : jsstring) : M unit :=
  emit (PerformanceMark name).
Definition performance_measure (label : PostOptions) (promptLength : nat)
    (startMark : jsstring) : M unit :=
  emit (PerformanceMeasure label promptLength startMark).
Definition console_log (line : jsstring) : M unit := emit (ConsoleLog line).
Definition console_warn (line : jsstring) : M unit := emit (ConsoleWarn line).
Definition console_error (line : jsstring) : M unit := emit (ConsoleError line).

(** The transport takes the request and answers with a response or
    rejects. *)
Definition transport (url : jsstring) (body : PostBody.t)
    (headers : Headers) : M AxiosResponse := λ p,
  let '(r, w) := axios_post url body headers (world p) in
  lift r {| env := env p; world := w; trace := trace p |}.

(** [await axios.post(url, body, { headers })]. *)
Definition await_axios_post (url : jsstring) (body : PostBody.t)
    (headers : Headers) : M AxiosResponse :=
  emit (HttpPost url body headers);;
  transport url body headers.

(** ** [getEnv] and the constructor *)

(** [process.env[name]]: a string, or [undefined] ([None]). *)
Definition process_env (name : string) : M (option jsstring) := λ p,
  (Ret (env p !! name), p).

(** [!value] holds of [undefined] and of the empty string. *)
Definition getEnv (name : string) : M jsstring :=
  value ← process_env name;
  match value with
  | Some (c :: value') => mret (c :: value')
  | Some [] | None =>
      console_error
        (lit ("Please set the " +:+ name +:+ " environment variable."));;
      process_exit 1
  end.

Record OpenAIModel : Type := {
  apiEndpoint : jsstring;
  apiKey : jsstring;
  instanceOptions : PostOptions
}.

(** [new OpenAIModel(instanceOptions)]; the parameter defaults to [{}],
    the empty map. *)
Definition new_OpenAIModel (instanceOptions : PostOptions) : M OpenAIModel :=
  let apiEndpoint := lit "https://api.openai.com/v1/chat/completions" in
  apiKey ← getEnv "OPENAI_API_KEY";
  console_log (lit "Using OpenAI GPT-4 API");;
  mret {| apiEndpoint := apiEndpoint;
          apiKey := apiKey;
          instanceOptions := instanceOptions |}.

(** ** [query] *)

(** The loop of lines 89-92: each choice's [message.content.trim()] is
    added to the set; the first failing choice aborts the loop. *)
Fixpoint add_choices (choices : list JsVal) (completions : JsSet)
    : Completion JsSet :=
  match choices with
  | [] => mret completions
  | choice :: rest =>
      msg ← get_prop choice "message";
      cont ← get_prop msg "content";
      text ← call_trim cont;
      add_choices rest (set_add text completions)
  end.

Definition query_headers (this : OpenAIModel) : Headers :=
  {| Content_Type := lit "application/json";
     Authorization := lit "Bearer " ++ apiKey this |}.

Definition query_options (this : OpenAIModel)
    (requestPostOptions : PostOptions) : PostOptions :=
  spread3 defaultPostOptions (instanceOptions this) requestPostOptions.

Definition query_postOptions (prompt : jsstring) (options : PostOptions)
    : PostBody.t :=
  {| PostBody.model := lit "gpt-4";
     PostBody.messages := [ {| role := lit "user"; content := prompt |} ];
     PostBody.max_tokens := read options "max_tokens";
     PostBody.temperature := read options "temperature";
     PostBody.n := read options "n";
     PostBody.top_p := read options "top_p";
     PostBody.stop := read options "stop" |}.

(** Lines 79-94: the checks on the response and the extraction of the
    completions, which touch no state. *)
Definition read_response (res : AxiosResponse) : Completion JsSet :=
  if negb (status res =? 200) then
    raise (Error (lit "Request failed with status "
                  ++ lit (pretty (status res))
                  ++ lit " and message " ++ statusText res))
  else if negb (truthy (data res)) then
    raise (Error (lit "Response data is empty"))
  else
    choices ← get_prop (data res) "choices";
    items ← iterate (js_or choices (JArr []));
    add_choices items [].

(** [query(prompt, requestPostOptions)]; the second parameter defaults to
    [{}], the empty map. *)
Definition query (this : OpenAIModel) (prompt : jsstring)
    (requestPostOptions : PostOptions) : M JsSet :=
  let headers := query_headers this in
  let options := query_options this requestPostOptions in
  performance_mark (lit "openai-query-start");;
  let postOptions := query_postOptions prompt options in
  res ← await_axios_post (apiEndpoint this) postOptions headers;
  performance_measure options (length prompt) (lit "openai-query-start");;
  lift (read_response res).

(** ** [completions] *)

Fixpoint add_trimmed (items : list jsstring) (result : JsSet)
    : Completion JsSet :=
  match items with
  | [] => mret result
  | completion :: rest =>
      trimmed ← trimCompletion completion;
      add_trimmed rest (set_add trimmed result)
  end.

Definition completions (this : OpenAIModel) (prompt : jsstring)
    (temperature : float) : M JsSet :=
  try_catch
    (found ← query this prompt {[ "temperature" := JNum temperature ]};
     lift (add_trimmed found []))
    (λ err,
       text ← lift (template_message err);
       console_warn (lit "Failed to get completions: " ++ text);;
       mret []).

End Client.

Arguments Process World : clear implicits.
Arguments M World A : clear implicits.

(** ** The entry point *)

Section EntryPoint.

(** Lines 120-130 run when the file is the main module.  Standard input
    belongs to the world outside; how [console.error] renders an error
    object (its stack) is the runtime's choice. *)
Context {World : Type}.
Variable axios_post :
  jsstring → PostBody.t → Headers → World → Completion AxiosResponse * World.
Variable readFileSync_stdin : World → Completion jsstring * World.
Variable inspect : Thrown → jsstring.

(** [fs.readFileSync(0, "utf8")]. *)
Definition fs_readFileSync_stdin : M World jsstring := λ p,
  let '(r, w) := readFileSync_stdin (world p) in
  lift r {| env := env p; world := w; trace := trace p |}.

(** What [console.log([...responses][0])] prints: the element inserted
    first, or [undefined] for the empty set. *)
Definition first_printed (responses : JsSet) : jsstring :=
  match responses with
  | first :: _ => first
  | [] => lit "undefined"
  end.

(** The asynchronous body, and the [catch] that reports and exits. *)
Definition main : M World unit :=
  try_catch
    (model ← new_OpenAIModel ∅;
     prompt ← fs_readFileSync_stdin;
     responses ← query axios_post model prompt {[ "n" := JNum 1%float ]};
     console_log (first_printed responses))
    (λ err,
       console_error (inspect err);;
       process_exit 1).

End EntryPoint.

(** ** A scripted transport *)

(** A stub transport for concrete runs: it answers its k-th call with the
    k-th scripted outcome, and rejects with a network error once the script
    is used up. *)
Module Stub.

Definition World : Type := list (Completion AxiosResponse).

Definition axios_post (url : jsstring) (body : PostBody.t)
    (headers : Headers) (w : World) : Completion AxiosResponse * World :=
  match w with
  | r :: w' => (r, w')
  | [] => (inl (Raised (Error (lit "Network Error"))), [])
  end.

(** A post-processor that leaves its input as it is. *)
Definition keep (completion : jsstring) : Completion jsstring :=
  inr completion.

(** A post-processor that always throws. *)
Definition broken (completion : jsstring) : Completion jsstring :=
  raise (Error (lit "Unexpected token")).

Definition start (vars : gmap string jsstring) (script : World)
    : Process World :=
  {| env := vars; world := script; trace := [] |}.

Definition model (instanceOptions : PostOptions) : OpenAIModel :=
  {| apiEndpoint := lit "https://api.openai.com/v1/chat/completions";
     apiKey := lit "sk-test";
     instanceOptions := instanceOptions |}.

Definition choice (text : string) : JsVal :=
  JObj {[ "message" := JObj {[ "content" := JStr (lit text) ]} ]}.

Definition payload (choices : list JsVal) : JsVal :=
  JObj {[ "choices" := JArr choices ]}.

Definition response (code : Z) (text : string) (body : JsVal)
    : Completion AxiosResponse :=
  inr {| status := code; statusText := lit text; data := body |}.

End Stub.

(** * Specification-side definitions *)

(** ** White space *)

Definition blank (s : jsstring) : Prop := Forall (λ c, is_whitespace c = true) s.

(** ** Insertion into a [Set] *)

(** The set after [s.add(x)] for each [x] of [xs], in order. *)
Definition insert_all (xs : list jsstring) (s : JsSet) : JsSet :=
  foldl (λ acc x, set_add x acc) s xs.

(** ** Well-formed payloads *)

(** A choice of the shape [{ "message": { "content": "<string>" } }],
    possibly with further properties. *)
Inductive has_content : JsVal → jsstring → Prop :=
  | HasContent (props mprops : gmap string JsVal) (text : jsstring) :
      props !! "message" = Some (JObj mprops) →
      mprops !! "content" = Some (JStr text) →
      has_content (JObj props) text.

(** A payload without a [choices] property: an object that has none of
    its own, or a value that is not an object. *)
Definition lacks_choices (payload : JsVal) : Prop :=
  match payload with
  | JObj props => props !! "choices" = None
  | _ => True
  end.

(** A payload [query] can read: it has no [choices], or its [choices] is
    an array of well-formed choices. *)
Definition readable_payload (payload : JsVal) : Prop :=
  lacks_choices payload ∨
  ∃ (props : gmap string JsVal) (choices : list JsVal) (texts : list jsstring),
    payload = JObj props ∧
    props !! "choices" = Some (JArr choices) ∧
    Forall2 has_content choices texts.

(** ** Layered options, in the specification's words *)

(** The built-in default, overridden by the instance's value when the
    instance options have the field, overridden by the call's value when
    the call options have it. *)
Definition layered (builtin : JsVal) (instance call : PostOptions)
    (k : string) : JsVal :=
  match call !! k with
  | Some v => v
  | None =>
      match instance !! k with
      | Some v => v
      | None => builtin
      end
  end.

Definition recognized : list string :=
  ["max_tokens"; "temperature"; "n"; "top_p"; "stop"].

(** The field of a request body that carries option [k]. *)
Definition body_field (body : PostBody.t) (k : string) : JsVal :=
  if decide (k = "max_tokens") then PostBody.max_tokens body
  else if decide (k = "temperature") then PostBody.temperature body
  else if decide (k = "n") then PostBody.n body
  else if decide (k = "top_p") then PostBody.top_p body
  else if decide (k = "stop") then PostBody.stop body
  else JUndefined.

(** ** Requests and attempts *)

(** The request [query] sends. *)
Definition request_of (this : OpenAIModel) (prompt : jsstring)
    (opts : PostOptions) : PostBody.t :=
  query_postOptions prompt (query_options this opts).

(** The options [completions] passes to [query]. *)
Definition only_temperature (temperature : float) : PostOptions :=
  {[ "temperature" := JNum temperature ]}.

(** What one call of [completions] attempts, given the transport's answer:
    reading the response, then post-processing every completion found. *)
Definition attempt (trimCompletion : jsstring → Completion jsstring)
    (answer : Completion AxiosResponse) : Completion JsSet :=
  res ← answer;
  found ← read_response res;
  add_trimmed trimCompletion found [].

(** The process state in which the credential variable is unset. *)
Definition without_credential {World : Type} (p : Process World)
    : Process World :=
  {| env := delete "OPENAI_API_KEY" (env p);
     world := world p;
     trace := trace p |}.

(** The same client with option [k] taken out of its instance options. *)
Definition forgetting (k : string) (this : OpenAIModel) : OpenAIModel :=
  {| apiEndpoint := apiEndpoint this;
     apiKey := apiKey this;
     instanceOptions := delete k (instanceOptions this) |}.

(** An error of the runtime: an [Error] object named [TypeError]. *)
Definition is_type_error (err : Thrown) : Prop :=
  ∃ e : JsError, err = Raised e ∧ err_name e = "TypeError".

(** ** Observations on a trace *)

(** The requests sent, with their address and headers. *)
Definition request_sent (e : Event) : option (jsstring * PostBody.t * Headers) :=
  match e with
  | HttpPost url body headers => Some (url, body, headers)
  | _ => None
  end.

Definition requests_sent (t : list Event) : list (jsstring * PostBody.t * Headers) :=
  omap request_sent t.

(** What went to the console, on any of its streams. *)
Definition console_line (e : Event) : option Event :=
  match e with
  | ConsoleLog _ | ConsoleWarn _ | ConsoleError _ => Some e
  | _ => None
  end.

Definition console_output (t : list Event) : list Event := omap console_line t.

(** The process state after further events. *)
Definition logged {World : Type} (p : Process World) (events : list Event)
    : Process World :=
  {| env := env p; world := world p; trace := trace p ++ events |}.

(** The process state once the world outside has moved on. *)
Definition moved {World : Type} (p : Process World) (w : World)
    : Process World :=
  {| env := env p; world := w; trace := trace p |}.

(** ** Reading one choice, and a whole payload *)

(** [choice.message.content.trim()]. *)
Definition choice_text (choice : JsVal) : Completion jsstring :=
  msg ← get_prop choice "message";
  cont ← get_prop msg "content";
  call_trim cont.

(** The message contents a payload holds: none when [choices] is missing
    or falsy, those of its elements when [choices] is an array of
    well-formed choices. *)
Definition payload_texts (payload : JsVal) (texts : list jsstring) : Prop :=
  ∃ held : JsVal,
    get_prop payload "choices" = inr held ∧
    ((truthy held = false ∧ texts = [])
     ∨ ∃ choices : list JsVal,
         held = JArr choices ∧ Forall2 has_content choices texts).

(** A string with no white space at either end. *)
Definition trimmed (s : jsstring) : Prop :=
  (∀ c rest, s = c :: rest → is_whitespace c = false) ∧
  (∀ c rest, s = rest ++ [c] → is_whitespace c = false).

(** The model the constructor builds from a credential. *)
Definition built (key : jsstring) (instanceOptions : PostOptions) : OpenAIModel :=
  {| apiEndpoint := lit "https://api.openai.com/v1/chat/completions";
     apiKey := key;
     instanceOptions := instanceOptions |}.

(** A payload whose [choices] is [null]. *)
Definition null_choices_payload : JsVal := JObj {[ "choices" := JNull ]}.

(** A choice that carries no message. *)
Definition bare_choice : JsVal := JObj {[ "index" := JNum 1%float ]}.

(** A well-formed choice followed by one without a message. *)
Definition mixed_payload : JsVal :=
  Stub.payload [Stub.choice "ok"; bare_choice].

Definition ok_bad_payload : JsVal :=
  Stub.payload [Stub.choice "ok"; Stub.choice "bad"].

(** A post-processor that refuses one particular completion. *)
Definition picky (completion : jsstring) : Completion jsstring :=
  if decide (completion = lit "bad") then raise (Error (lit "Unexpected token"))
  else inr completion.

(** An environment that holds a credential. *)
Definition with_credential : gmap string jsstring :=
  {[ "OPENAI_API_KEY" := lit "sk-test" ]}.

(** Standard input holding a text, and standard input that cannot be
    read; neither touches the transport's script. *)
Definition stdin_holds (text : string) (w : Stub.World)
    : Completion jsstring * Stub.World :=
  (inr (lit text), w).

Definition stdin_closed (w : Stub.World) : Completion jsstring * Stub.World :=
  (inl (Raised (Error (lit "EAGAIN: resource temporarily unavailable, read"))),
   w).

(** A rendering of what was thrown: an error object by its name and its
    message, any other value by a fixed word. *)
Definition show_error (err : Thrown) : jsstring :=
  match err with
  | Raised e => lit (err_name e) ++ lit ": " ++ message e
  | RaisedValue _ => lit "Uncaught"
  end.

(** The request body the entry point sends for a prompt: the built-in
    defaults, with [n] given as 1. *)
Definition main_body (prompt : jsstring) : PostBody.t :=
  {| PostBody.model := lit "gpt-4";
     PostBody.messages := [ {| role := lit "user"; content := prompt |} ];
     PostBody.max_tokens := JNum 100%float;
     PostBody.temperature := JNum 0%float;
     PostBody.n := JNum 1%float;
     PostBody.top_p := JNum 1%float;
     PostBody.stop := JNull |}.

(** ** Scenarios for the scripted transport *)

(** The response of the specification's example: two choices, [" hi  "]
    and ["hi"]. *)
Definition hi_payload : JsVal :=
  Stub.payload [Stub.choice " hi  "; Stub.choice "hi"].

(** A payload of status 200 that has no [choices]. *)
Definition bare_payload : JsVal :=
  JObj {[ "id" := JStr (lit "chatcmpl-1") ]}.

(** Two calls in a row, the transport answering both with the same
    response: the second call starts in the state the first one left. *)
Definition twice : Process Stub.World :=
  Stub.start ∅ [Stub.response 200 "OK" hi_payload;
                Stub.response 200 "OK" hi_payload].

(** One call, answered with the example response. *)
Definition once : Process Stub.World :=
  Stub.start ∅ [Stub.response 200 "OK" hi_payload].

(** The credential variable set to the empty string. *)
Definition empty_credential : Process Stub.World :=
  Stub.start {[ "OPENAI_API_KEY" := [] ]} [].

(** A transport whose promise is rejected with [undefined], and one
    rejected with a string. *)
Definition rejecting_undefined : Process Stub.World :=
  Stub.start ∅ [inl (RaisedValue JUndefined)].

Definition rejecting_text : Process Stub.World :=
  Stub.start ∅ [inl (RaisedValue (JStr (lit "boom")))].

(** A payload whose [choices] is the number 5. *)
Definition numeric_choices_payload : JsVal :=
  JObj {[ "choices" := JNum 5%float ]}.

(** A refused response: status 429. *)
Definition busy : AxiosResponse :=
  {| status := 429; statusText := lit "Too Many Requests"; data := hi_payload |}.

(** A credential, and the example response waiting. *)
Definition ready : Process Stub.World :=
  Stub.start with_credential [Stub.response 200 "OK" hi_payload].

(** One call, answered with two completions, the second unwelcome. *)
Definition ok_then_bad : Process Stub.World :=
  Stub.start ∅ [Stub.response 200 "OK" ok_bad_payload].

(** No credential, no script. *)
Definition bare : Process Stub.World := Stub.start ∅ [].

(** A credential, and a response without choices waiting. *)
Definition ready_bare : Process Stub.World :=
  Stub.start with_credential [Stub.response 200 "OK" bare_payload].

(** A credential, and a transport that rejects. *)
Definition offline : Process Stub.World := Stub.start with_credential [].

(** * Properties *)

(** ** [trim] removes the surrounding white space, and nothing else *)

Lemma trimStart_spec (s : jsstring) :
  ∃ l : jsstring,
    s = l ++ trimStart s ∧ blank l ∧
    ∀ c rest, trimStart s = c :: rest → is_whitespace c = false.
Proof.
  induction s as [|c s (l & Hs & Hl & Hhead)]; simpl.
  - exists []. by split_and!; [|constructor|].
  - destruct (is_whitespace c) eqn:Hc.
    + exists (c :: l). split_and!; [by rewrite Hs at 1|by constructor|done].
    + exists []. split_and!; [done|constructor|].
      by intros c' rest [= <- _].
Qed.

Lemma trimEnd_spec (s : jsstring) :
  ∃ r : jsstring,
    s = trimEnd s ++ r ∧ blank r ∧
    ∀ c rest, trimEnd s = rest ++ [c] → is_whitespace c = false.
Proof.
  destruct (trimStart_spec (reverse s)) as (l & Hs & Hl & Hhead).
  exists (reverse l). unfold trimEnd. split_and!.
  - by rewrite <- reverse_app, <- Hs, reverse_involutive.
  - unfold blank. by apply Forall_reverse.
  - intros c rest Hlast. apply (Hhead c (reverse rest)).
    apply (inj reverse). by rewrite Hlast, reverse_cons, reverse_involutive.
Qed.

Lemma trim_spec (s : jsstring) :
  ∃ l r : jsstring,
    s = l ++ trim s ++ r ∧ blank l ∧ blank r ∧
    (∀ c rest, trim s = c :: rest → is_whitespace c = false) ∧
    (∀ c rest, trim s = rest ++ [c] → is_whitespace c = false).
Proof.
  destruct (trimStart_spec s) as (l & Hs & Hl & Hhead).
  destruct (trimEnd_spec (trimStart s)) as (r & Ht & Hr & Hlast).
  exists l, r. unfold trim. split_and!; try done.
  - by rewrite <- Ht.
  - intros c rest Hc. apply (Hhead c (rest ++ r)).
    by rewrite Ht at 1; rewrite Hc.
Qed.

(** ** Insertion into a [Set] keeps it a set *)

Lemma set_add_NoDup x s : NoDup s → NoDup (set_add x s).
Proof.
  intros Hs. unfold set_add. case_decide as Hx; [done|].
  apply NoDup_app. split_and!; [done| |apply NoDup_singleton].
  intros y Hy ->%list_elem_of_singleton. done.
Qed.

Lemma elements_set_add x s : elements (set_add x s) = {[ x ]} ∪ elements s.
Proof.
  unfold elements, set_add. case_decide as Hx.
  - apply set_eq. intros y. rewrite elem_of_union, elem_of_singleton,
      !elem_of_list_to_set. naive_solver.
  - rewrite list_to_set_app_L. simpl. set_solver.
Qed.

Lemma insert_all_NoDup xs s : NoDup s → NoDup (insert_all xs s).
Proof.
  revert s. induction xs as [|x xs IH]; intros s Hs; [done|].
  simpl. apply IH. by apply set_add_NoDup.
Qed.

Lemma elements_insert_all xs s :
  elements (insert_all xs s) = elements s ∪ list_to_set xs.
Proof.
  revert s. induction xs as [|x xs IH]; intros s; simpl.
  - set_solver.
  - rewrite IH, elements_set_add. set_solver.
Qed.

Lemma insert_all_length_le xs s :
  (length (insert_all xs s) ≤ length s + length xs)%nat.
Proof.
  revert s. induction xs as [|x xs IH]; intros s; simpl; [lia|].
  etrans; [apply IH|]. unfold set_add.
  case_decide; [lia|]. rewrite length_app. simpl. lia.
Qed.

(** The size grows by one per insertion exactly when nothing is inserted
    twice. *)
Lemma insert_all_length_eq xs s :
  NoDup s →
  length (insert_all xs s) = (length s + length xs)%nat ↔ NoDup (s ++ xs).
Proof.
  revert s. induction xs as [|x xs IH]; intros s Hs; simpl.
  - rewrite app_nil_r. split; [done|lia].
  - unfold set_add at 1. case_decide as Hx.
    + split.
      * pose proof (insert_all_length_le xs s). lia.
      * intros [_ [Hdis _]]%NoDup_app. exfalso.
        apply (Hdis x Hx). left.
    + specialize (IH (s ++ [x])).
      rewrite <- (assoc_L (++) s [x] xs) in IH. simpl in IH.
      rewrite <- IH.
      * rewrite length_app. simpl. lia.
      * apply NoDup_app. split_and!; [done| |apply NoDup_singleton].
        intros y Hy ->%list_elem_of_singleton. done.
Qed.

(** ** Reading merged options and payloads *)

Lemma read_spread3 (a b c : PostOptions) (k : string) :
  read (spread3 a b c) k = layered (read a k) b c k.
Proof.
  unfold read, spread3, layered. rewrite !lookup_union.
  by destruct (c !! k), (b !! k), (a !! k).
Qed.

Lemma get_prop_lacks_choices (payload : JsVal) :
  truthy payload = true →
  lacks_choices payload →
  get_prop payload "choices" = inr JUndefined.
Proof.
  destruct payload; simpl; try done.
  intros _ ->. done.
Qed.

(** ** [query] *)

Section QueryProperties.

Context {World : Type}.
Variable axios_post :
  jsstring → PostBody.t → Headers → World → Completion AxiosResponse * World.

Implicit Types (this : OpenAIModel) (prompt : jsstring) (opts : PostOptions).
Implicit Types (p : Process World) (res : AxiosResponse).

Lemma add_choices_has_content (choices : list JsVal) (texts : list jsstring)
    (acc : JsSet) :
  Forall2 has_content choices texts →
  add_choices choices acc = inr (insert_all (trim <$> texts) acc).
Proof.
  intros H. revert acc.
  induction H as [|choice text choices texts Hc _ IH]; intros acc; [done|].
  destruct Hc as [props mprops text Hm Ht]. simpl.
  rewrite Hm. simpl. rewrite Ht. simpl. apply IH.
Qed.

(** One run of [query], step by step: the mark, the post, then either
    the transport's error, or the measure and the reading of the
    response. *)
Lemma query_run this prompt opts p :
  query axios_post this prompt opts p =
    let sent :=
      trace p ++ [PerformanceMark (lit "openai-query-start");
                  HttpPost (apiEndpoint this) (request_of this prompt opts)
                           (query_headers this)] in
    match axios_post (apiEndpoint this) (request_of this prompt opts)
                     (query_headers this) (world p) with
    | (inl e, w) => (Throw e, {| env := env p; world := w; trace := sent |})
    | (inr res, w) =>
        (outcome (read_response res),
         {| env := env p; world := w;
            trace := sent ++ [PerformanceMeasure (query_options this opts)
                                (length prompt)
                                (lit "openai-query-start")] |})
    end.
Proof.
  unfold query, await_axios_post, performance_mark, performance_measure,
    transport, request_of.
  cbv [mbind M_bind emit lift]. simpl.
  destruct (axios_post _ _ _ _) as [[e|res] w]; simpl.
  - by rewrite <- app_assoc.
  - rewrite <- !app_assoc. simpl. by destruct (read_response res).
Qed.

Lemma query_posts_once this prompt opts p :
  bodies_posted (trace (query axios_post this prompt opts p).2) =
    bodies_posted (trace p) ++ [request_of this prompt opts].
Proof.
  rewrite query_run. unfold bodies_posted.
  destruct (axios_post _ _ _ _) as [[e|res] w]; simpl;
    rewrite !omap_app; simpl; by rewrite ?app_nil_r.
Qed.

Lemma query_warns_nothing this prompt opts p :
  warnings (trace (query axios_post this prompt opts p).2) =
    warnings (trace p).
Proof.
  rewrite query_run. unfold warnings.
  destruct (axios_post _ _ _ _) as [[e|res] w]; simpl;
    rewrite !omap_app; simpl; by rewrite ?app_nil_r.
Qed.

(** C1 (amended): for every response with status 200 whose payload is an
    object with a [choices] array of well-formed choices, [query] returns
    the set obtained by trimming each choice's message content and
    collapsing duplicates; its size is at most the number of choices,
    with equality exactly when no two choices trim to the same text. *)
Theorem query_collects_trimmed_choices this prompt opts p res w
    (props : gmap string JsVal) (choices : list JsVal)
    (texts : list jsstring) :
  axios_post (apiEndpoint this) (request_of this prompt opts)
             (query_headers this) (world p) = (inr res, w) →
  status res = 200 →
  data res = JObj props →
  props !! "choices" = Some (JArr choices) →
  Forall2 has_content choices texts →
  ∃ found p',
    query axios_post this prompt opts p = (Ret found, p') ∧
    found = insert_all (trim <$> texts) [] ∧
    NoDup found ∧
    elements found = list_to_set (trim <$> texts) ∧
    (length found ≤ length choices)%nat ∧
    (length found = length choices ↔ NoDup (trim <$> texts)).
Proof.
  intros Hpost Hstatus Hdata Hchoices Hwf.
  rewrite query_run, Hpost. unfold read_response.
  rewrite Hstatus, Hdata. simpl. rewrite Hchoices. simpl.
  rewrite (add_choices_has_content _ _ _ Hwf). simpl.
  eexists _, _. split; [reflexivity|].
  pose proof (Forall2_length _ _ _ Hwf) as Hlen.
  assert (length (trim <$> texts) = length choices) as Hlen'
    by (by rewrite length_fmap).
  split_and!.
  - done.
  - apply insert_all_NoDup, NoDup_nil_2.
  - rewrite elements_insert_all. unfold elements. simpl. set_solver.
  - pose proof (insert_all_length_le (trim <$> texts) []) as Hle.
    simpl in Hle. lia.
  - rewrite <- Hlen'.
    exact (insert_all_length_eq (trim <$> texts) [] NoDup_nil_2).
Qed.

(** C4 (amended): the transport is asked exactly once and its rejection
    propagates unchanged; a response whose status is not 200 makes [query]
    fail with an error carrying the status code and the status text; with
    status 200 a missing or empty (falsy) payload makes it fail with
    "Response data is empty"; with status 200 and a truthy payload whose
    choices are absent or well-formed it returns normally, and it returns
    normally only under status 200 with a truthy payload. *)
Theorem query_failure_policy this prompt opts p :
  ∃ (answer : Completion AxiosResponse) (w : World) (out : Outcome JsSet) p',
    axios_post (apiEndpoint this) (request_of this prompt opts)
               (query_headers this) (world p) = (answer, w) ∧
    query axios_post this prompt opts p = (out, p') ∧
    world p' = w ∧
    bodies_posted (trace p') =
      bodies_posted (trace p) ++ [request_of this prompt opts] ∧
    match answer with
    | inl e => out = Throw e
    | inr res =>
        (status res ≠ 200 →
         out = Throw (Error (lit "Request failed with status "
                             ++ lit (pretty (status res))
                             ++ lit " and message " ++ statusText res))) ∧
        (status res = 200 → truthy (data res) = false →
         out = Throw (Error (lit "Response data is empty"))) ∧
        (status res = 200 → truthy (data res) = true →
         readable_payload (data res) → ∃ found, out = Ret found) ∧
        (∀ found, out = Ret found →
         status res = 200 ∧ truthy (data res) = true)
    end.
Proof.
  pose proof (query_posts_once this prompt opts p) as Hposts.
  revert Hposts. rewrite query_run.
  destruct (axios_post _ _ _ _) as [[e|res] w] eqn:Hpost; simpl; intros Hposts.
  - eexists (inl e), w, _, _. by split_and!.
  - eexists (inr res), w, _, _.
    split; [done|]. split; [reflexivity|]. split; [done|].
    split; [exact Hposts|]. split_and!.
    + intros Hstatus%Z.eqb_neq. unfold read_response. by rewrite Hstatus.
    + intros Hstatus Hdata. unfold read_response.
      by rewrite Hstatus, Hdata.
    + intros Hstatus Hdata Hread. unfold read_response.
      rewrite Hstatus, Hdata. simpl.
      destruct Hread as [Hnone|(props & choices & texts & -> & Hc & Hwf)].
      * rewrite (get_prop_lacks_choices _ Hdata Hnone). simpl. by eexists.
      * simpl. rewrite Hc. simpl.
        rewrite (add_choices_has_content _ _ _ Hwf). simpl. by eexists.
    + intros found. unfold read_response.
      destruct (status res =? 200) eqn:Hstatus; simpl; [|done].
      apply Z.eqb_eq in Hstatus.
      by destruct (truthy (data res)).
Qed.

(** C6 (amended): for every response with status 200 whose non-empty
    (truthy) payload has no [choices], [query] returns the empty set and
    does not throw. *)
Theorem query_without_choices_is_empty this prompt opts p res w :
  axios_post (apiEndpoint this) (request_of this prompt opts)
             (query_headers this) (world p) = (inr res, w) →
  status res = 200 →
  truthy (data res) = true →
  lacks_choices (data res) →
  ∃ p', query axios_post this prompt opts p = (Ret [], p').
Proof.
  intros Hpost Hstatus Hdata Hnone.
  rewrite query_run, Hpost. unfold read_response.
  rewrite Hstatus, Hdata. simpl.
  rewrite (get_prop_lacks_choices _ Hdata Hnone). simpl. by eexists.
Qed.

(** C8: two calls of [query] with the same prompt and options, made in any
    two process states in which the transport gives the same answer, end
    with the same result: the same set, or the same error. *)
Theorem query_deterministic this prompt opts p1 p2 :
  (axios_post (apiEndpoint this) (request_of this prompt opts)
              (query_headers this) (world p1)).1
    = (axios_post (apiEndpoint this) (request_of this prompt opts)
                  (query_headers this) (world p2)).1 →
  (query axios_post this prompt opts p1).1
    = (query axios_post this prompt opts p2).1.
Proof.
  rewrite !query_run.
  destruct (axios_post _ _ _ (world p1)) as [answer1 w1].
  destruct (axios_post _ _ _ (world p2)) as [answer2 w2].
  simpl. intros ->. by destruct answer2.
Qed.

(** C2: the request body [query] posts carries, field by field, the
    built-in default (max_tokens 100, temperature 0, n 1, top_p 1, stop
    null) overridden by the instance options, overridden by the per-call
    options. *)
Theorem query_sends_layered_options this prompt opts p :
  ∃ (body : PostBody.t) (out : Outcome JsSet) p',
    query axios_post this prompt opts p = (out, p') ∧
    bodies_posted (trace p') = bodies_posted (trace p) ++ [body] ∧
    PostBody.max_tokens body =
      layered (JNum 100%float) (instanceOptions this) opts "max_tokens" ∧
    PostBody.temperature body =
      layered (JNum 0%float) (instanceOptions this) opts "temperature" ∧
    PostBody.n body =
      layered (JNum 1%float) (instanceOptions this) opts "n" ∧
    PostBody.top_p body =
      layered (JNum 1%float) (instanceOptions this) opts "top_p" ∧
    PostBody.stop body =
      layered JNull (instanceOptions this) opts "stop".
Proof.
  exists (request_of this prompt opts).
  pose proof (query_posts_once this prompt opts p) as Hposts.
  destruct (query axios_post this prompt opts p) as [out p'].
  exists out, p'. split; [done|]. split; [done|].
  unfold request_of, query_postOptions, query_options. simpl.
  by rewrite !read_spread3.
Qed.

Lemma body_field_request_of this prompt opts (k : string) :
  body_field (request_of this prompt opts) k =
    if decide (k ∈ recognized) then read (query_options this opts) k
    else JUndefined.
Proof.
  unfold body_field, recognized.
  repeat case_decide; simplify_eq; try done;
    match goal with
    | H : ¬ _ ∈ _ |- _ => exfalso; apply H; set_solver
    | H : _ ∈ _ |- _ => set_solver
    end.
Qed.

(** C10: a recognized key that the per-call options hold with the value
    [undefined] (or that the instance options hold so while the call
    leaves it out) reaches the request body as [undefined], and the
    built-in default, which is never [undefined], is not applied; whereas
    with that key absent from both the call and the instance options, all
    else equal, the request body carries the built-in default for it, and
    every other field as before. *)
Theorem undefined_option_overrides this prompt opts p (k : string) :
  k ∈ recognized →
  opts !! k = Some JUndefined
  ∨ (opts !! k = None ∧ instanceOptions this !! k = Some JUndefined) →
  ∃ (body : PostBody.t) (out : Outcome JsSet) p',
    query axios_post this prompt opts p = (out, p') ∧
    bodies_posted (trace p') = bodies_posted (trace p) ++ [body] ∧
    body_field body k = JUndefined ∧
    read defaultPostOptions k ≠ JUndefined ∧
    ∃ (absent : PostBody.t) (out0 : Outcome JsSet) p0',
      query axios_post (forgetting k this) prompt (delete k opts) p
        = (out0, p0') ∧
      bodies_posted (trace p0') = bodies_posted (trace p) ++ [absent] ∧
      body_field absent k = read defaultPostOptions k ∧
      ∀ k', k' ≠ k → body_field absent k' = body_field body k'.
Proof.
  intros Hk Hundef.
  exists (request_of this prompt opts).
  pose proof (query_posts_once this prompt opts p) as Hposts.
  destruct (query axios_post this prompt opts p) as [out p'].
  exists out, p'. split; [done|]. split; [done|].
  split.
  { rewrite body_field_request_of. rewrite decide_True by done.
    unfold query_options. rewrite read_spread3. unfold layered.
    by destruct Hundef as [->|[-> ->]]. }
  split.
  { unfold recognized in Hk.
    repeat (apply elem_of_cons in Hk as [->|Hk]);
      [..|by apply elem_of_nil in Hk]; done. }
  exists (request_of (forgetting k this) prompt (delete k opts)).
  pose proof (query_posts_once (forgetting k this) prompt (delete k opts) p)
    as Hposts0.
  destruct (query axios_post (forgetting k this) prompt (delete k opts) p)
    as [out0 p0'].
  exists out0, p0'. split; [done|]. split; [done|]. split.
  - rewrite body_field_request_of. rewrite decide_True by done.
    unfold query_options, forgetting. rewrite read_spread3. unfold layered.
    simpl. by rewrite !lookup_delete_eq.
  - intros k' Hne. rewrite !body_field_request_of.
    case_decide; [|done].
    unfold query_options, forgetting. rewrite !read_spread3. unfold layered.
    simpl. by rewrite !lookup_delete_ne.
Qed.

End QueryProperties.

(** ** [completions] and the constructor *)

Section ClientProperties.

Context {World : Type}.
Variable axios_post :
  jsstring → PostBody.t → Headers → World → Completion AxiosResponse * World.
Variable trimCompletion : jsstring → Completion jsstring.

Implicit Types (this : OpenAIModel) (prompt : jsstring) (opts : PostOptions).
Implicit Types (p : Process World) (temperature : float).

Lemma add_trimmed_all (found cleaned : list jsstring) (acc : JsSet) :
  Forall2 (λ raw clean, trimCompletion raw = inr clean) found cleaned →
  add_trimmed trimCompletion found acc = inr (insert_all cleaned acc).
Proof.
  intros H. revert acc.
  induction H as [|raw clean found cleaned Hraw _ IH]; intros acc; [done|].
  simpl. rewrite Hraw. simpl. apply IH.
Qed.

(** One run of [completions], in terms of the transport's answer: the
    set on success; on a thrown value the warning, if its message can be
    read and printed, and otherwise the error of reading it. *)
Lemma completions_run this prompt temperature p :
  completions axios_post trimCompletion this prompt temperature p =
    let after := (query axios_post this prompt
                        (only_temperature temperature) p).2 in
    match attempt trimCompletion (axios_post (apiEndpoint this)
                     (request_of this prompt (only_temperature temperature))
                     (query_headers this) (world p)).1 with
    | inr cleaned => (Ret cleaned, after)
    | inl err =>
        match template_message err with
        | inr text =>
            (Ret [],
             {| env := env after; world := world after;
                trace := trace after
                           ++ [ConsoleWarn (lit "Failed to get completions: "
                                            ++ text)] |})
        | inl failure => (Throw failure, after)
        end
    end.
Proof.
  unfold completions, try_catch, only_temperature.
  cbv [mbind M_bind]. rewrite query_run.
  destruct (axios_post _ _ _ _) as [[err|res] w]; cbn [fst snd].
  - unfold attempt, lift. cbn [mbind Completion_bind outcome].
    by destruct (template_message err).
  - unfold attempt, lift. cbn [mbind Completion_bind].
    destruct (read_response res) as [err|found];
      cbn [mbind Completion_bind outcome].
    + by destruct (template_message err).
    + destruct (add_trimmed trimCompletion found []) as [err|cleaned];
        cbn [outcome]; [|done].
      by destruct (template_message err).
Qed.

(** C5: when [query], called with only [temperature] overridden, returns
    and the post-processor accepts every completion, [completions] returns
    the set of the post-processed completions; the request carries the
    given temperature, and every other option as merged from the defaults
    and the instance options. *)
Theorem completions_maps_trimCompletion this prompt temperature p
    (found cleaned : list jsstring) (p1 : Process World) :
  query axios_post this prompt (only_temperature temperature) p
    = (Ret found, p1) →
  Forall2 (λ raw clean, trimCompletion raw = inr clean) found cleaned →
  completions axios_post trimCompletion this prompt temperature p
    = (Ret (insert_all cleaned []), p1) ∧
  elements (insert_all cleaned []) = list_to_set cleaned ∧
  ∃ body : PostBody.t,
    bodies_posted (trace p1) = bodies_posted (trace p) ++ [body] ∧
    PostBody.temperature body = JNum temperature ∧
    PostBody.max_tokens body =
      layered (JNum 100%float) (instanceOptions this) ∅ "max_tokens" ∧
    PostBody.n body = layered (JNum 1%float) (instanceOptions this) ∅ "n" ∧
    PostBody.top_p body =
      layered (JNum 1%float) (instanceOptions this) ∅ "top_p" ∧
    PostBody.stop body = layered JNull (instanceOptions this) ∅ "stop".
Proof.
  intros Hquery Hclean. split_and!.
  - unfold completions, try_catch. cbv [mbind M_bind].
    fold (only_temperature temperature). rewrite Hquery.
    unfold lift. by rewrite (add_trimmed_all _ _ _ Hclean).
  - rewrite elements_insert_all. unfold elements. simpl. set_solver.
  - exists (request_of this prompt (only_temperature temperature)).
    pose proof (query_posts_once axios_post this prompt
                  (only_temperature temperature) p) as Hposts.
    rewrite Hquery in Hposts. split; [exact Hposts|].
    unfold request_of, query_postOptions, query_options. simpl.
    rewrite !read_spread3. done.
Qed.

(** C7: without [OPENAI_API_KEY] in the environment the constructor prints
    the diagnostic and terminates the process with exit code 1; nothing has
    been posted, and whatever would have followed the construction never
    runs. *)
Theorem constructor_exits_without_credential opts p :
  env p !! "OPENAI_API_KEY" = None →
  ∃ p',
    new_OpenAIModel opts p = (Exit 1, p') ∧
    trace p' =
      trace p ++ [ConsoleError
                    (lit "Please set the OPENAI_API_KEY environment variable.")] ∧
    world p' = world p ∧
    bodies_posted (trace p') = bodies_posted (trace p) ∧
    ∀ (B : Type) (next : OpenAIModel → M World B),
      (new_OpenAIModel opts ≫= next) p = (Exit 1, p').
Proof.
  intros Hkey.
  exists {| env := env p; world := world p;
            trace := trace p ++ [ConsoleError
              (lit "Please set the OPENAI_API_KEY environment variable.")] |}.
  assert (new_OpenAIModel opts p =
            (Exit 1, {| env := env p; world := world p;
                        trace := trace p ++ [ConsoleError
                          (lit "Please set the OPENAI_API_KEY environment variable.")] |}))
    as Hnew.
  { unfold new_OpenAIModel, getEnv, process_env. cbv [mbind M_bind].
    rewrite Hkey. reflexivity. }
  split; [exact Hnew|]. split_and!; try done.
  - unfold bodies_posted. simpl. rewrite omap_app. simpl. by rewrite app_nil_r.
  - intros B next. unfold mbind at 1. unfold M_bind at 1. by rewrite Hnew.
Qed.

(** C9: with [OPENAI_API_KEY] set to the empty string the constructor does
    what it does when the variable is absent: it prints the same
    diagnostic and terminates the process with exit code 1, before
    anything is posted or anything else runs. *)
Theorem constructor_rejects_empty_credential opts p :
  env p !! "OPENAI_API_KEY" = Some ([] : jsstring) →
  (new_OpenAIModel opts p).1 = Exit 1 ∧
  (new_OpenAIModel opts p).1
    = (new_OpenAIModel opts (without_credential p)).1 ∧
  trace (new_OpenAIModel opts p).2
    = trace (new_OpenAIModel opts (without_credential p)).2 ∧
  trace (new_OpenAIModel opts p).2 =
    trace p ++ [ConsoleError
                  (lit "Please set the OPENAI_API_KEY environment variable.")] ∧
  world (new_OpenAIModel opts p).2 = world p ∧
  ∀ (B : Type) (next : OpenAIModel → M World B),
    ((new_OpenAIModel opts ≫= next) p).1 = Exit 1.
Proof.
  intros Hkey.
  assert (new_OpenAIModel opts p =
            (Exit 1, {| env := env p; world := world p;
                        trace := trace p ++ [ConsoleError
                          (lit "Please set the OPENAI_API_KEY environment variable.")] |}))
    as Hnew.
  { unfold new_OpenAIModel, getEnv, process_env. cbv [mbind M_bind].
    rewrite Hkey. reflexivity. }
  assert (new_OpenAIModel opts (without_credential p) =
            (Exit 1, {| env := delete "OPENAI_API_KEY" (env p); world := world p;
                        trace := trace p ++ [ConsoleError
                          (lit "Please set the OPENAI_API_KEY environment variable.")] |}))
    as Habsent.
  { unfold new_OpenAIModel, getEnv, process_env. cbv [mbind M_bind].
    simpl. rewrite lookup_delete_eq. reflexivity. }
  rewrite Hnew, Habsent. split_and!; try done.
  intros B next. unfold mbind at 1. unfold M_bind at 1. by rewrite Hnew.
Qed.

End ClientProperties.

(** ** Concrete runs against the scripted transport *)

Example trim_hi : trim (lit " hi  ") = lit "hi".
Proof. reflexivity. Qed.

Example insert_hi_twice :
  insert_all [trim (lit " hi  "); trim (lit "hi")] [] = [lit "hi"].
Proof. reflexivity. Qed.

Lemma stub_choice_has_content (text : string) :
  has_content (Stub.choice text) (lit text).
Proof. unfold Stub.choice. by econstructor. Qed.

Lemma query_collects_hi :
  ∃ found p',
    query Stub.axios_post (Stub.model ∅) (lit "Say hi") ∅
          (Stub.start ∅ [Stub.response 200 "OK" hi_payload])
      = (Ret found, p') ∧
    found = insert_all (trim <$> [lit " hi  "; lit "hi"]) [] ∧
    NoDup found ∧
    elements found = list_to_set (trim <$> [lit " hi  "; lit "hi"]) ∧
    (length found ≤ length [Stub.choice " hi  "; Stub.choice "hi"])%nat ∧
    (length found = length [Stub.choice " hi  "; Stub.choice "hi"]
     ↔ NoDup (trim <$> [lit " hi  "; lit "hi"])).
Proof.
  apply (query_collects_trimmed_choices Stub.axios_post (Stub.model ∅)
           (lit "Say hi") ∅ (Stub.start ∅ [Stub.response 200 "OK" hi_payload])
           {| status := 200; statusText := lit "OK"; data := hi_payload |} []
           {[ "choices" := JArr [Stub.choice " hi  "; Stub.choice "hi"] ]}).
  - reflexivity.
  - reflexivity.
  - reflexivity.
  - reflexivity.
  - repeat constructor; apply stub_choice_has_content.
Defined.

(** The specification's example: both choices trim to ["hi"]. *)
Example query_hi_is_singleton :
  (query Stub.axios_post (Stub.model ∅) (lit "Say hi") ∅
         (Stub.start ∅ [Stub.response 200 "OK" hi_payload])).1
    = Ret [lit "hi"].
Proof. vm_compute. reflexivity. Qed.

(** A response with status 201 and the very same payload makes [query]
    throw: the check is [res.status !== 200], not a test of the 2xx
    range. *)
Lemma query_status_201_throws :
  (200 ≤ 201 < 300) ∧
  (query Stub.axios_post (Stub.model ∅) (lit "Say hi") ∅
         (Stub.start ∅ [Stub.response 201 "Created" hi_payload])).1
    = Throw (Error (lit "Request failed with status 201 and message Created")).
Proof. split; [lia|]. vm_compute. reflexivity. Qed.

(** A response with status 202 and a non-empty payload makes [query]
    throw, although the status is in the 2xx range and the payload is
    there. *)
Lemma query_status_202_throws :
  (200 ≤ 202 < 300) ∧
  truthy hi_payload = true ∧
  (query Stub.axios_post (Stub.model ∅) (lit "Say hi") ∅
         (Stub.start ∅ [Stub.response 202 "Accepted" hi_payload])).1
    = Throw (Error (lit "Request failed with status 202 and message Accepted")).
Proof. split; [lia|]. split; [reflexivity|]. vm_compute. reflexivity. Qed.

(** The specification's example: status 429. *)
Example query_status_429_throws :
  (query Stub.axios_post (Stub.model ∅) (lit "Say hi") ∅
         (Stub.start ∅ [Stub.response 429 "Too Many Requests" hi_payload])).1
    = Throw (Error (lit "Request failed with status 429 and message Too Many Requests")).
Proof. vm_compute. reflexivity. Qed.

Example completions_status_429_is_empty :
  (completions Stub.axios_post Stub.keep (Stub.model ∅) (lit "Say hi")
               0.5%float
               (Stub.start ∅ [Stub.response 429 "Too Many Requests" hi_payload])).1
    = Ret [].
Proof. vm_compute. reflexivity. Qed.

(** Status 200 with no payload at all. *)
Example query_empty_payload_throws :
  (query Stub.axios_post (Stub.model ∅) (lit "Say hi") ∅
         (Stub.start ∅ [Stub.response 200 "OK" JUndefined])).1
    = Throw (Error (lit "Response data is empty")).
Proof. vm_compute. reflexivity. Qed.

(** The status is checked first: an empty payload under another status is
    reported as a failed request. *)
Example query_checks_status_first :
  (query Stub.axios_post (Stub.model ∅) (lit "Say hi") ∅
         (Stub.start ∅ [Stub.response 500 "Internal Server Error" JNull])).1
    = Throw (Error (lit "Request failed with status 500 and message Internal Server Error")).
Proof. vm_compute. reflexivity. Qed.

(** A choice without a [message] cannot be read: the runtime throws. *)
Example query_malformed_choice_throws :
  (query Stub.axios_post (Stub.model ∅) (lit "Say hi") ∅
         (Stub.start ∅ [Stub.response 200 "OK"
                          (Stub.payload [JObj {[ "index" := JNum 0%float ]}])])).1
    = Throw (TypeError (lit "Cannot read properties of undefined (reading 'content')")).
Proof. vm_compute. reflexivity. Qed.

(** A rejection of the transport reaches the caller of [query] as it is. *)
Example query_network_error_propagates :
  (query Stub.axios_post (Stub.model ∅) (lit "Say hi") ∅ (Stub.start ∅ [])).1
    = Throw (Error (lit "Network Error")).
Proof. vm_compute. reflexivity. Qed.

Lemma query_bare_payload_is_empty :
  ∃ p',
    query Stub.axios_post (Stub.model ∅) (lit "Say hi") ∅
          (Stub.start ∅ [Stub.response 200 "OK" bare_payload])
      = (Ret [], p').
Proof.
  apply (query_without_choices_is_empty Stub.axios_post (Stub.model ∅)
           (lit "Say hi") ∅ (Stub.start ∅ [Stub.response 200 "OK" bare_payload])
           {| status := 200; statusText := lit "OK"; data := bare_payload |} []).
  - reflexivity.
  - reflexivity.
  - reflexivity.
  - reflexivity.
Defined.

(** The same payload under status 203 makes [query] throw. *)
Lemma query_status_203_without_choices_throws :
  (200 ≤ 203 < 300) ∧
  truthy bare_payload = true ∧
  lacks_choices bare_payload ∧
  (query Stub.axios_post (Stub.model ∅) (lit "Say hi") ∅
         (Stub.start ∅ [Stub.response 203 "Non-Authoritative Information"
                          bare_payload])).1
    = Throw (Error (lit "Request failed with status 203 and message Non-Authoritative Information")).
Proof.
  split; [lia|]. split; [reflexivity|]. split; [reflexivity|].
  vm_compute. reflexivity.
Qed.

Lemma query_twice_same_result :
  (query Stub.axios_post (Stub.model ∅) (lit "Say hi") ∅ twice).1
    = (query Stub.axios_post (Stub.model ∅) (lit "Say hi") ∅
             (query Stub.axios_post (Stub.model ∅) (lit "Say hi") ∅ twice).2).1.
Proof.
  apply (query_deterministic Stub.axios_post (Stub.model ∅) (lit "Say hi") ∅
           twice
           (query Stub.axios_post (Stub.model ∅) (lit "Say hi") ∅ twice).2).
  reflexivity.
Defined.

(** The specification's example: the default [max_tokens] is 100, the
    instance sets 50, the call sets 10; 10 is sent. *)
Example layered_max_tokens :
  bodies_posted
    (trace (query Stub.axios_post
                  (Stub.model {[ "max_tokens" := JNum 50%float ]})
                  (lit "Say hi")
                  {[ "max_tokens" := JNum 10%float ]}
                  (Stub.start ∅ [])).2)
  = [ {| PostBody.model := lit "gpt-4";
         PostBody.messages := [ {| role := lit "user"; content := lit "Say hi" |} ];
         PostBody.max_tokens := JNum 10%float;
         PostBody.temperature := JNum 0%float;
         PostBody.n := JNum 1%float;
         PostBody.top_p := JNum 1%float;
         PostBody.stop := JNull |} ].
Proof. vm_compute. reflexivity. Qed.

Lemma undefined_max_tokens_is_sent :
  ∃ (body : PostBody.t) (out : Outcome JsSet) p',
    query Stub.axios_post (Stub.model ∅) (lit "Say hi")
          {[ "max_tokens" := JUndefined ]} (Stub.start ∅ []) = (out, p') ∧
    bodies_posted (trace p') = bodies_posted (trace (Stub.start ∅ [])) ++ [body] ∧
    body_field body "max_tokens" = JUndefined ∧
    read defaultPostOptions "max_tokens" ≠ JUndefined ∧
    ∃ (absent : PostBody.t) (out0 : Outcome JsSet) p0',
      query Stub.axios_post (forgetting "max_tokens" (Stub.model ∅))
            (lit "Say hi") (delete "max_tokens" {[ "max_tokens" := JUndefined ]})
            (Stub.start ∅ []) = (out0, p0') ∧
      bodies_posted (trace p0')
        = bodies_posted (trace (Stub.start ∅ [])) ++ [absent] ∧
      body_field absent "max_tokens" = read defaultPostOptions "max_tokens" ∧
      ∀ k', k' ≠ "max_tokens" → body_field absent k' = body_field body k'.
Proof.
  apply (undefined_option_overrides Stub.axios_post (Stub.model ∅)
           (lit "Say hi") {[ "max_tokens" := JUndefined ]} (Stub.start ∅ [])
           "max_tokens").
  - unfold recognized. apply list_elem_of_here.
  - left. reflexivity.
Defined.

(** A transport that always fails: [completions] returns the empty set
    and prints one warning. *)
Example completions_network_error :
  let after :=
    completions Stub.axios_post Stub.keep (Stub.model ∅) (lit "Say hi")
                0.5%float (Stub.start ∅ []) in
  after.1 = Ret [] ∧
  warnings (trace after.2) = [lit "Failed to get completions: Network Error"].
Proof. split; vm_compute; reflexivity. Qed.

(** A post-processor that throws is caught in the same way. *)
Example completions_postprocessing_error :
  let after :=
    completions Stub.axios_post Stub.broken (Stub.model ∅) (lit "Say hi")
                0.5%float (Stub.start ∅ [Stub.response 200 "OK" hi_payload]) in
  after.1 = Ret [] ∧
  warnings (trace after.2) = [lit "Failed to get completions: Unexpected token"].
Proof. split; vm_compute; reflexivity. Qed.

Lemma completions_keeps_hi :
  completions Stub.axios_post Stub.keep (Stub.model ∅) (lit "Say hi")
              0.5%float once
    = (Ret (insert_all [lit "hi"] []),
       (query Stub.axios_post (Stub.model ∅) (lit "Say hi")
              (only_temperature 0.5%float) once).2) ∧
  elements (insert_all [lit "hi"] []) = list_to_set [lit "hi"] ∧
  ∃ body : PostBody.t,
    bodies_posted
      (trace (query Stub.axios_post (Stub.model ∅) (lit "Say hi")
                    (only_temperature 0.5%float) once).2)
      = bodies_posted (trace once) ++ [body] ∧
    PostBody.temperature body = JNum 0.5%float ∧
    PostBody.max_tokens body =
      layered (JNum 100%float) (instanceOptions (Stub.model ∅)) ∅ "max_tokens" ∧
    PostBody.n body =
      layered (JNum 1%float) (instanceOptions (Stub.model ∅)) ∅ "n" ∧
    PostBody.top_p body =
      layered (JNum 1%float) (instanceOptions (Stub.model ∅)) ∅ "top_p" ∧
    PostBody.stop body =
      layered JNull (instanceOptions (Stub.model ∅)) ∅ "stop".
Proof.
  apply (completions_maps_trimCompletion Stub.axios_post Stub.keep
           (Stub.model ∅) (lit "Say hi") 0.5%float once [lit "hi"] [lit "hi"]).
  - reflexivity.
  - repeat constructor.
Defined.

Lemma constructor_exits_in_empty_environment :
  ∃ p',
    new_OpenAIModel ∅ (Stub.start ∅ []) = (Exit 1, p') ∧
    trace p' =
      trace (Stub.start ∅ [])
        ++ [ConsoleError
              (lit "Please set the OPENAI_API_KEY environment variable.")] ∧
    world p' = world (Stub.start ∅ []) ∧
    bodies_posted (trace p') = bodies_posted (trace (Stub.start ∅ [])) ∧
    ∀ (B : Type) (next : OpenAIModel → M Stub.World B),
      (new_OpenAIModel ∅ ≫= next) (Stub.start ∅ []) = (Exit 1, p').
Proof.
  apply (constructor_exits_without_credential ∅ (Stub.start ∅ [])).
  reflexivity.
Defined.

(** With the variable set, construction succeeds and announces itself. *)
Example constructor_succeeds :
  (new_OpenAIModel ∅
     (Stub.start {[ "OPENAI_API_KEY" := lit "sk-test" ]} [])).1
    = Ret (Stub.model ∅).
Proof. vm_compute. reflexivity. Qed.

Lemma constructor_exits_on_empty_credential :
  (new_OpenAIModel ∅ empty_credential).1 = Exit 1 ∧
  (new_OpenAIModel ∅ empty_credential).1
    = (new_OpenAIModel ∅ (without_credential empty_credential)).1 ∧
  trace (new_OpenAIModel ∅ empty_credential).2
    = trace (new_OpenAIModel ∅ (without_credential empty_credential)).2 ∧
  trace (new_OpenAIModel ∅ empty_credential).2 =
    trace empty_credential
      ++ [ConsoleError
            (lit "Please set the OPENAI_API_KEY environment variable.")] ∧
  world (new_OpenAIModel ∅ empty_credential).2 = world empty_credential ∧
  ∀ (B : Type) (next : OpenAIModel → M Stub.World B),
    ((new_OpenAIModel ∅ ≫= next) empty_credential).1 = Exit 1.
Proof.
  apply (constructor_rejects_empty_credential ∅ empty_credential).
  reflexivity.
Defined.

(** * Further properties of the client *)

(** ** Reading choices *)

Lemma add_choices_cons (choice : JsVal) (rest : list JsVal) (acc : JsSet) :
  add_choices (choice :: rest) acc =
    match choice_text choice with
    | inl e => inl e
    | inr text => add_choices rest (set_add text acc)
    end.
Proof.
  unfold choice_text. simpl.
  destruct (get_prop choice "message") as [e|msg]; simpl; [done|].
  destruct (get_prop msg "content") as [e|cont]; simpl; [done|].
  by destruct (call_trim cont).
Qed.

Lemma choice_text_inr (choice : JsVal) (t : jsstring) :
  choice_text choice = inr t ↔ ∃ text, has_content choice text ∧ t = trim text.
Proof.
  split.
  - unfold choice_text.
    destruct choice as [| | | | | |props]; simpl; try done.
    destruct (props !! "message") as [[| | | | | |mprops]|] eqn:Hm;
      simpl; try done.
    destruct (mprops !! "content") as [[| | | |text| |]|] eqn:Hc;
      simpl; try done.
    intros [= <-]. exists text. split; [by econstructor|done].
  - intros (text & [props mprops text' Hm Hc] & ->).
    unfold choice_text. simpl. rewrite Hm. simpl. by rewrite Hc.
Qed.

Lemma raise_type_error {A} (msg : jsstring) (err : Thrown) :
  raise (A := A) (TypeError msg) = inl err → is_type_error err.
Proof. intros [= <-]. by eexists. Qed.

Lemma choice_text_inl (choice : JsVal) (err : Thrown) :
  choice_text choice = inl err → is_type_error err.
Proof.
  unfold choice_text.
  destruct choice as [| | | | | |props]; simpl;
    try by apply raise_type_error.
  destruct (props !! "message") as [[| | | | | |mprops]|] eqn:Hm;
    simpl; try by apply raise_type_error.
  destruct (mprops !! "content") as [[| | | |text| |]|] eqn:Hc;
    simpl; try by apply raise_type_error.
  done.
Qed.

Lemma add_choices_inr (choices : list JsVal) (acc found : JsSet) :
  add_choices choices acc = inr found ↔
    ∃ texts, Forall2 has_content choices texts ∧
             found = insert_all (trim <$> texts) acc.
Proof.
  revert acc. induction choices as [|choice rest IH]; intros acc.
  - simpl. split.
    + intros [= <-]. exists []. by split; [constructor|].
    + intros (texts & Hwf & ->). by apply Forall2_nil_inv_l in Hwf as ->.
  - rewrite add_choices_cons.
    destruct (choice_text choice) as [e|text] eqn:Htext.
    + split; [done|]. intros (texts & Hwf & _).
      inversion Hwf as [|? text0 ? texts0 Hc Hrest]; subst.
      assert (choice_text choice = inr (trim text0)) as Hok
        by (apply choice_text_inr; eauto).
      congruence.
    + rewrite IH. split.
      * intros (texts & Hwf & ->).
        apply choice_text_inr in Htext as (text0 & Hc & ->).
        exists (text0 :: texts). by split; [constructor|].
      * intros (texts & Hwf & ->).
        inversion Hwf as [|? text0 ? texts0 Hc Hrest]; subst.
        assert (choice_text choice = inr (trim text0)) as Hok
          by (apply choice_text_inr; eauto).
        assert (text = trim text0) as -> by congruence.
        exists texts0. by split.
Qed.

Lemma add_choices_inl (choices : list JsVal) (acc : JsSet) (err : Thrown) :
  add_choices choices acc = inl err → is_type_error err.
Proof.
  revert acc. induction choices as [|choice rest IH]; intros acc; [done|].
  rewrite add_choices_cons.
  destruct (choice_text choice) as [e'|text] eqn:Htext.
  - intros [= <-]. by eapply choice_text_inl.
  - apply IH.
Qed.

Lemma code_points_cons (c : N) (s : jsstring) :
  ∃ first rest, code_points (c :: s) = first :: rest.
Proof.
  destruct s as [|d s]; simpl; [by eauto|].
  destruct (is_high_surrogate c && is_low_surrogate d); eauto.
Qed.

(** ** Reading a response *)

(** Closes a case in which the value held by [choices] is truthy and is
    not an array, against a hypothesis that the payload has texts. *)
Ltac not_held :=
  match goal with
  | H : ∃ held : JsVal, _ |- _ =>
      let Hcase := fresh in
      destruct H as (? & ? & Hcase); simplify_eq/=;
      destruct Hcase as [[? _]|(? & ? & _)]; simplify_eq/=; congruence
  end.

Lemma read_response_inr (res : AxiosResponse) (found : JsSet) :
  read_response res = inr found ↔
    status res = 200 ∧ truthy (data res) = true ∧
    ∃ texts, payload_texts (data res) texts ∧
             found = insert_all (trim <$> texts) [].
Proof.
  unfold read_response, payload_texts.
  destruct (status res =? 200) eqn:Hs; simpl.
  2: { split; [done|]. intros [Hs' _]. by apply Z.eqb_neq in Hs. }
  apply Z.eqb_eq in Hs.
  destruct (truthy (data res)) eqn:Hd; simpl.
  2: { split; [done|]. by intros (_ & ? & _). }
  destruct (get_prop (data res) "choices") as [e|held] eqn:Hg; simpl.
  { split; [done|]. by intros (_ & _ & texts & (held & ? & _) & _). }
  unfold js_or. destruct (truthy held) eqn:Hh.
  - destruct held as [| |b|x|s|choices|props]; simpl in Hh; try done.
    + split; [done|].
      intros (_ & _ & texts & Hheld & _). by not_held.
    + split; [done|].
      intros (_ & _ & texts & Hheld & _). by not_held.
    + destruct s as [|c s]; [done|].
      destruct (code_points_cons c s) as (first & rest & Hcp).
      unfold iterate. rewrite Hcp. simpl.
      split; [done|].
      intros (_ & _ & texts & Hheld & _). by not_held.
    + simpl. rewrite add_choices_inr. split.
      * intros (texts & Hwf & ->). split_and!; try done.
        exists texts. split; [|done]. exists (JArr choices). split; [done|].
        right. by exists choices.
      * intros (_ & _ & texts & (held & [= <-] & [[? _]|(? & [= <-] & Hwf)]) & ->);
          [done|]. by exists texts.
    + split; [done|].
      intros (_ & _ & texts & Hheld & _). by not_held.
  - simpl. split.
    + intros [= <-]. split_and!; try done. exists []. split; [|done].
      exists held. split; [done|]. by left.
    + intros (_ & _ & texts & (held' & [= <-] & [[_ ->]|(? & -> & _)]) & ->);
        done.
Qed.

Lemma read_response_inl (res : AxiosResponse) (err : Thrown) :
  read_response res = inl err →
  (status res ≠ 200 ∧
   err = Error (lit "Request failed with status " ++ lit (pretty (status res))
                ++ lit " and message " ++ statusText res))
  ∨ (status res = 200 ∧ truthy (data res) = false ∧
     err = Error (lit "Response data is empty"))
  ∨ (status res = 200 ∧ truthy (data res) = true ∧ is_type_error err).
Proof.
  unfold read_response.
  destruct (status res =? 200) eqn:Hs; simpl.
  2: { intros [= <-]. left. by apply Z.eqb_neq in Hs. }
  apply Z.eqb_eq in Hs.
  destruct (truthy (data res)) eqn:Hd; simpl.
  2: { intros [= <-]. right. left. done. }
  intros He. right. right. split_and!; try done.
  destruct (get_prop (data res) "choices") as [e'|held] eqn:Hg; simpl in He.
  { destruct (data res); simpl in Hd, Hg; done. }
  destruct (iterate (js_or held (JArr []))) as [e'|items] eqn:Hi; simpl in He.
  - injection He as <-. unfold iterate in Hi.
    destruct (js_or held (JArr [])); try done;
      by eapply raise_type_error.
  - by eapply add_choices_inl.
Qed.

Lemma outcome_Ret {A} (c : Completion A) (a : A) : outcome c = Ret a ↔ c = inr a.
Proof. destruct c; simpl; split; congruence. Qed.

Lemma outcome_Throw {A} (c : Completion A) (e : Thrown) :
  outcome c = Throw e ↔ c = inl e.
Proof. destruct c; simpl; split; congruence. Qed.

Lemma trim_trimmed (s : jsstring) : trimmed (trim s).
Proof. destruct (trim_spec s) as (l & r & _ & _ & _ & Hhead & Hlast). by split. Qed.

Lemma insert_all_Forall (P : jsstring → Prop) (xs : list jsstring) (acc : JsSet) :
  Forall P xs → Forall P acc → Forall P (insert_all xs acc).
Proof.
  intros Hxs. revert acc.
  induction Hxs as [|x xs Hx _ IH]; intros acc Hacc; [done|].
  simpl. apply IH. unfold set_add. case_decide; [done|].
  apply Forall_app. by split; [|constructor].
Qed.

(** ** What the constructor does in every environment *)

Section ConstructorRuns.

Context {World : Type}.
Implicit Types (p : Process World) (opts : PostOptions).

Lemma new_OpenAIModel_ok opts p (key : jsstring) :
  env p !! "OPENAI_API_KEY" = Some key →
  key ≠ [] →
  new_OpenAIModel opts p =
    (Ret (built key opts), logged p [ConsoleLog (lit "Using OpenAI GPT-4 API")]).
Proof.
  intros Hkey Hne.
  unfold new_OpenAIModel, getEnv, process_env. cbv [mbind M_bind].
  rewrite Hkey. by destruct key.
Qed.

Lemma new_OpenAIModel_exits opts p :
  env p !! "OPENAI_API_KEY" = None
  ∨ env p !! "OPENAI_API_KEY" = Some ([] : jsstring) →
  new_OpenAIModel opts p =
    (Exit 1,
     logged p [ConsoleError
                 (lit "Please set the OPENAI_API_KEY environment variable.")]).
Proof.
  intros Hkey.
  unfold new_OpenAIModel, getEnv, process_env. cbv [mbind M_bind].
  by destruct Hkey as [->| ->].
Qed.

(** X1: the constructor returns a model exactly when [OPENAI_API_KEY] holds
    a non-empty string, and then the model has the fixed endpoint, that
    string as its key and the given instance options; it never throws,
    and when it ends the process the exit code is 1. *)
Theorem constructor_succeeds_exactly_when opts p :
  (∀ model, (new_OpenAIModel opts p).1 = Ret model ↔
     ∃ key : jsstring,
       env p !! "OPENAI_API_KEY" = Some key ∧ key ≠ [] ∧
       model = built key opts) ∧
  (∀ e, (new_OpenAIModel opts p).1 ≠ Throw e) ∧
  (∀ code, (new_OpenAIModel opts p).1 = Exit code → code = 1).
Proof.
  destruct (env p !! "OPENAI_API_KEY") as [[|c key]|] eqn:Hkey.
  - rewrite (new_OpenAIModel_exits opts p) by by right.
    split_and!; simpl; [|done|by intros ? [= <-]].
    intros model. split; [done|]. by intros (key & [= <-] & ? & _).
  - rewrite (new_OpenAIModel_ok opts p (c :: key)) by done.
    split_and!; simpl; [|done|done].
    intros model. split.
    + intros [= <-]. by exists (c :: key).
    + by intros (key' & [= <-] & _ & ->).
  - rewrite (new_OpenAIModel_exits opts p) by by left.
    split_and!; simpl; [|done|by intros ? [= <-]].
    intros model. split; [done|]. by intros (key & ? & _).
Qed.

End ConstructorRuns.

(** ** More on [query] *)

Section FurtherQuery.

Context {World : Type}.
Variable axios_post :
  jsstring → PostBody.t → Headers → World → Completion AxiosResponse * World.

Implicit Types (this : OpenAIModel) (prompt : jsstring) (opts : PostOptions).
Implicit Types (p : Process World) (res : AxiosResponse).

Lemma query_answered this prompt opts p res (w : World) :
  axios_post (apiEndpoint this) (request_of this prompt opts)
             (query_headers this) (world p) = (inr res, w) →
  (query axios_post this prompt opts p).1 = outcome (read_response res).
Proof. intros Hpost. by rewrite query_run, Hpost. Qed.

(** X2: when the transport answers, [query] returns a set exactly when the
    status is 200, the payload is truthy, and [choices] is missing, falsy,
    or an array of well-formed choices; the set is then the trimmed
    message contents, inserted in order. *)
Theorem query_returns_exactly_when this prompt opts p res (w : World)
    (found : JsSet) :
  axios_post (apiEndpoint this) (request_of this prompt opts)
             (query_headers this) (world p) = (inr res, w) →
  (query axios_post this prompt opts p).1 = Ret found ↔
    status res = 200 ∧ truthy (data res) = true ∧
    ∃ texts, payload_texts (data res) texts ∧
             found = insert_all (trim <$> texts) [].
Proof.
  intros Hpost. rewrite (query_answered _ _ _ _ _ _ Hpost), outcome_Ret.
  apply read_response_inr.
Qed.

(** X3: when the transport answers and [query] throws, the error is the
    status error (status other than 200), the empty-data error (status
    200, falsy payload), or a [TypeError] of the runtime (status 200,
    truthy payload that cannot be read). *)
Theorem query_error_kinds this prompt opts p res (w : World) (err : Thrown) :
  axios_post (apiEndpoint this) (request_of this prompt opts)
             (query_headers this) (world p) = (inr res, w) →
  (query axios_post this prompt opts p).1 = Throw err →
  (status res ≠ 200 ∧
   err = Error (lit "Request failed with status " ++ lit (pretty (status res))
                ++ lit " and message " ++ statusText res))
  ∨ (status res = 200 ∧ truthy (data res) = false ∧
     err = Error (lit "Response data is empty"))
  ∨ (status res = 200 ∧ truthy (data res) = true ∧
     (∃ e : JsError, err = Raised e ∧ err_name e = "TypeError") ∧
     ¬ ∃ texts, payload_texts (data res) texts).
Proof.
  intros Hpost. rewrite (query_answered _ _ _ _ _ _ Hpost), outcome_Throw.
  intros He. destruct (read_response_inl _ _ He) as [?|[?|(Hs & Hd & Hn)]];
    [by left|by right; left|].
  right. right. split_and!; try done.
  intros (texts & Htexts).
  assert (read_response res = inr (insert_all (trim <$> texts) [])) as Hok
    by (apply read_response_inr; eauto).
  congruence.
Qed.

(** X4: one choice without a string [message.content], anywhere in the
    array, makes [query] throw a [TypeError]: the completions of the
    well-formed choices are lost with it. *)
Theorem query_malformed_choice_discards_all this prompt opts p res (w : World)
    (props : gmap string JsVal) (choices : list JsVal) (bad : JsVal) :
  axios_post (apiEndpoint this) (request_of this prompt opts)
             (query_headers this) (world p) = (inr res, w) →
  status res = 200 →
  data res = JObj props →
  props !! "choices" = Some (JArr choices) →
  bad ∈ choices →
  (∀ text, ¬ has_content bad text) →
  ∃ e : JsError, (query axios_post this prompt opts p).1 = Throw e ∧
                 err_name e = "TypeError".
Proof.
  intros Hpost Hs Hd Hc Hbad Hnone.
  rewrite (query_answered _ _ _ _ _ _ Hpost).
  destruct (read_response res) as [err|found] eqn:Hr; simpl.
  - destruct (read_response_inl _ _ Hr)
      as [[? _]|[(_ & Hf & _)|(_ & _ & e & -> & He)]];
      [done|by rewrite Hd in Hf|].
    by exists e.
  - exfalso. apply read_response_inr in Hr as (_ & _ & texts & Htexts & _).
    destruct Htexts as (held & Hheld & Hcase).
    rewrite Hd in Hheld. simpl in Hheld. rewrite Hc in Hheld.
    injection Hheld as <-.
    destruct Hcase as [[? _]|(choices' & [= <-] & Hwf)]; [done|].
    apply list_elem_of_lookup in Hbad as (i & Hi).
    destruct (Forall2_lookup_l _ _ _ _ _ Hwf Hi) as (text & _ & Htext).
    by apply (Hnone text).
Qed.

(** X5: a [choices] property that is there but falsy ([null], [false],
    [0], the empty string) is read like a missing one: under status 200
    [query] returns the empty set. *)
Theorem query_falsy_choices_is_empty this prompt opts p res (w : World)
    (props : gmap string JsVal) (held : JsVal) :
  axios_post (apiEndpoint this) (request_of this prompt opts)
             (query_headers this) (world p) = (inr res, w) →
  status res = 200 →
  data res = JObj props →
  props !! "choices" = Some held →
  truthy held = false →
  (query axios_post this prompt opts p).1 = Ret [].
Proof.
  intros Hpost Hs Hd Hc Hf.
  rewrite (query_answered _ _ _ _ _ _ Hpost), outcome_Ret.
  apply read_response_inr. split_and!; [done|by rewrite Hd|].
  exists []. split; [|done]. exists held. split; [|by left].
  rewrite Hd. simpl. by rewrite Hc.
Qed.

(** X6: whatever the transport answers, every string in a set [query]
    returns is free of white space at both ends, and no string occurs in
    it twice. *)
Theorem query_results_are_trimmed this prompt opts p (found : JsSet) :
  (query axios_post this prompt opts p).1 = Ret found →
  Forall trimmed found ∧ NoDup found.
Proof.
  rewrite query_run.
  destruct (axios_post _ _ _ _) as [[e|res] w]; simpl; [done|].
  intros (_ & _ & texts & _ & ->)%outcome_Ret%read_response_inr. split.
  - apply insert_all_Forall; [|constructor].
    apply Forall_fmap, Forall_forall. intros s _. apply trim_trimmed.
  - apply insert_all_NoDup, NoDup_nil_2.
Qed.

(** X7: what one call of [query] leaves behind: the start mark and the
    request, and the timing measure (labelled with the merged options and
    the prompt's length) exactly when the transport answered, also when
    the response is then refused; the environment is untouched and
    nothing goes to the console. *)
Theorem query_observable_effects this prompt opts p :
  ∃ (answer : Completion AxiosResponse) (w : World),
    axios_post (apiEndpoint this) (request_of this prompt opts)
               (query_headers this) (world p) = (answer, w) ∧
    env (query axios_post this prompt opts p).2 = env p ∧
    world (query axios_post this prompt opts p).2 = w ∧
    console_output (trace (query axios_post this prompt opts p).2)
      = console_output (trace p) ∧
    trace (query axios_post this prompt opts p).2 =
      trace p
        ++ [PerformanceMark (lit "openai-query-start");
            HttpPost (apiEndpoint this) (request_of this prompt opts)
                     (query_headers this)]
        ++ match answer with
           | inl _ => []
           | inr _ => [PerformanceMeasure (query_options this opts)
                         (length prompt) (lit "openai-query-start")]
           end.
Proof.
  rewrite query_run.
  destruct (axios_post _ _ _ _) as [[e|res] w]; eexists _, w;
    (split; [reflexivity|]); simpl; split_and!; try done.
  - unfold console_output. rewrite omap_app. simpl. by rewrite app_nil_r.
  - unfold console_output. rewrite !omap_app. simpl. by rewrite !app_nil_r.
  - by rewrite <- app_assoc.
Qed.

(** X8: a model built by the constructor sends its request to the fixed
    chat-completions address, as JSON, with the credential of the
    environment as bearer token, the model name gpt-4 and the prompt as
    the single user message. *)
Theorem constructed_model_posts_with_credential opts prompt
    (requestPostOptions : PostOptions) p (key : jsstring) :
  env p !! "OPENAI_API_KEY" = Some key →
  key ≠ [] →
  ∃ (body : PostBody.t) (out : Outcome JsSet) p',
    (new_OpenAIModel opts ≫=
       λ model, query axios_post model prompt requestPostOptions) p
      = (out, p') ∧
    requests_sent (trace p') =
      requests_sent (trace p)
        ++ [(lit "https://api.openai.com/v1/chat/completions", body,
             {| Content_Type := lit "application/json";
                Authorization := lit "Bearer " ++ key |})] ∧
    PostBody.model body = lit "gpt-4" ∧
    PostBody.messages body = [ {| role := lit "user"; content := prompt |} ].
Proof.
  intros Hkey Hne.
  exists (request_of (built key opts) prompt requestPostOptions).
  unfold mbind at 1. unfold M_bind at 1.
  rewrite (new_OpenAIModel_ok opts p key Hkey Hne).
  destruct (query _ _ _ _ _) as [out p'] eqn:Hq.
  exists out, p'. split; [done|]. split; [|done].
  assert (p' = (query axios_post (built key opts) prompt requestPostOptions
                  (logged p [ConsoleLog (lit "Using OpenAI GPT-4 API")])).2)
    as -> by by rewrite Hq.
  rewrite query_run. unfold requests_sent.
  destruct (axios_post _ _ _ _) as [[e|res] w]; simpl;
    rewrite !omap_app; simpl; by rewrite ?app_nil_r.
Qed.

End FurtherQuery.

(** ** More on [completions] *)

Lemma elem_of_insert_all (x : jsstring) (xs : list jsstring) (acc : JsSet) :
  x ∈ insert_all xs acc → x ∈ acc ∨ x ∈ xs.
Proof.
  intros Hx.
  assert (x ∈ elements (insert_all xs acc)) as Hin
    by (unfold elements; by apply elem_of_list_to_set).
  rewrite elements_insert_all in Hin. unfold elements in Hin.
  apply elem_of_union in Hin as [Hin|Hin];
    apply elem_of_list_to_set in Hin; eauto.
Qed.

Section FurtherCompletions.

Context {World : Type}.
Variable axios_post :
  jsstring → PostBody.t → Headers → World → Completion AxiosResponse * World.
Variable trimCompletion : jsstring → Completion jsstring.

Implicit Types (this : OpenAIModel) (prompt : jsstring) (temperature : float).
Implicit Types (p : Process World) (res : AxiosResponse).

Lemma add_trimmed_inr (found : list jsstring) (acc result : JsSet) :
  add_trimmed trimCompletion found acc = inr result →
  ∃ cleaned,
    Forall2 (λ raw clean, trimCompletion raw = inr clean) found cleaned ∧
    result = insert_all cleaned acc.
Proof.
  revert acc. induction found as [|raw found IH]; intros acc; simpl.
  - intros [= <-]. exists []. by split; [constructor|].
  - destruct (trimCompletion raw) as [e|clean] eqn:Hraw; simpl; [done|].
    intros (cleaned & Hall & ->)%IH.
    exists (clean :: cleaned). by split; [constructor|].
Qed.

Lemma add_trimmed_stops (before after cleaned : list jsstring)
    (raw : jsstring) (err : Thrown) (acc : JsSet) :
  Forall2 (λ raw clean, trimCompletion raw = inr clean) before cleaned →
  trimCompletion raw = inl err →
  add_trimmed trimCompletion (before ++ raw :: after) acc = inl err.
Proof.
  intros Hall Hraw. revert acc.
  induction Hall as [|r c before cleaned Hr _ IH]; intros acc; simpl.
  - by rewrite Hraw.
  - rewrite Hr. simpl. apply IH.
Qed.

Lemma completions_after_query this prompt temperature p (found : JsSet)
    (p1 : Process World) :
  query axios_post this prompt (only_temperature temperature) p
    = (Ret found, p1) →
  completions axios_post trimCompletion this prompt temperature p =
    match add_trimmed trimCompletion found [] with
    | inr result => (Ret result, p1)
    | inl err =>
        match template_message err with
        | inr text =>
            (Ret [], logged p1 [ConsoleWarn (lit "Failed to get completions: "
                                              ++ text)])
        | inl failure => (Throw failure, p1)
        end
    end.
Proof.
  intros Hquery. unfold completions, try_catch. cbv [mbind M_bind].
  fold (only_temperature temperature). rewrite Hquery. unfold lift.
  destruct (add_trimmed trimCompletion found []) as [err|result];
    cbn [outcome]; [|done].
  by destruct (template_message err).
Qed.

(** X9: every call of [completions] sends exactly one request, carrying
    the given temperature, whether the call then succeeds or fails:
    nothing is retried. *)
Theorem completions_posts_once this prompt temperature p :
  ∃ body : PostBody.t,
    bodies_posted
      (trace (completions axios_post trimCompletion this prompt temperature p).2)
      = bodies_posted (trace p) ++ [body] ∧
    PostBody.temperature body = JNum temperature ∧
    PostBody.messages body = [ {| role := lit "user"; content := prompt |} ].
Proof.
  exists (request_of this prompt (only_temperature temperature)).
  split.
  - rewrite completions_run.
    pose proof (query_posts_once axios_post this prompt
                  (only_temperature temperature) p) as Hposts.
    destruct (attempt _ _) as [err|cleaned]; simpl; [|done].
    destruct (template_message err) as [failure|text]; simpl; [done|].
    unfold bodies_posted in *. rewrite omap_app, Hposts. simpl.
    by rewrite app_nil_r.
  - split; [|done].
    unfold request_of, query_postOptions, query_options. simpl.
    by rewrite read_spread3.
Qed.

(** X10: when the post-processor throws on one completion, the
    completions before it, already post-processed, are dropped too:
    [completions] returns the empty set and warns with that error's
    message. *)
Theorem completions_all_or_nothing this prompt temperature p
    (before after cleaned : list jsstring) (raw : jsstring) (e : JsError)
    (p1 : Process World) :
  query axios_post this prompt (only_temperature temperature) p
    = (Ret (before ++ raw :: after), p1) →
  Forall2 (λ raw clean, trimCompletion raw = inr clean) before cleaned →
  trimCompletion raw = inl (Raised e) →
  completions axios_post trimCompletion this prompt temperature p =
    (Ret [], logged p1 [ConsoleWarn (lit "Failed to get completions: "
                                      ++ message e)]).
Proof.
  intros Hquery Hall Hraw.
  rewrite (completions_after_query _ _ _ _ _ _ Hquery).
  by rewrite (add_trimmed_stops _ _ _ _ _ _ Hall Hraw).
Qed.

(** X11: a response whose status is not 200 gives the empty set, and the
    one warning printed names the status code and the status text. *)
Theorem completions_reports_status this prompt temperature p res (w : World) :
  axios_post (apiEndpoint this)
             (request_of this prompt (only_temperature temperature))
             (query_headers this) (world p) = (inr res, w) →
  status res ≠ 200 →
  (completions axios_post trimCompletion this prompt temperature p).1 = Ret [] ∧
  warnings
    (trace (completions axios_post trimCompletion this prompt temperature p).2)
    = warnings (trace p)
        ++ [lit "Failed to get completions: "
            ++ lit "Request failed with status " ++ lit (pretty (status res))
            ++ lit " and message " ++ statusText res].
Proof.
  intros Hpost Hstatus%Z.eqb_neq.
  rewrite completions_run, Hpost. unfold attempt, read_response. simpl.
  rewrite Hstatus. simpl. split; [done|].
  unfold warnings. rewrite omap_app.
  pose proof (query_warns_nothing axios_post this prompt
                (only_temperature temperature) p) as Hquiet.
  unfold warnings in Hquiet. by rewrite Hquiet.
Qed.

(** X12: every string [completions] returns is what the post-processor
    made of some string [query] returned; the set is no larger than
    [query]'s and holds nothing twice. *)
Theorem completions_results_are_postprocessed this prompt temperature p
    (found result : JsSet) (p1 : Process World) :
  query axios_post this prompt (only_temperature temperature) p
    = (Ret found, p1) →
  (completions axios_post trimCompletion this prompt temperature p).1
    = Ret result →
  (∀ x, x ∈ result → ∃ raw, raw ∈ found ∧ trimCompletion raw = inr x) ∧
  (length result ≤ length found)%nat ∧
  NoDup result.
Proof.
  intros Hquery. rewrite (completions_after_query _ _ _ _ _ _ Hquery).
  destruct (add_trimmed trimCompletion found []) as [err|r] eqn:Hadd; simpl.
  - destruct (template_message err) as [failure|text]; simpl; [done|].
    intros [= <-]. split_and!; [by intros x ?%elem_of_nil|simpl; lia|constructor].
  - intros [= <-].
    apply add_trimmed_inr in Hadd as (cleaned & Hall & ->). split_and!.
    + intros x [Hx|Hx]%elem_of_insert_all; [by apply elem_of_nil in Hx|].
      apply list_elem_of_lookup in Hx as (i & Hi).
      destruct (Forall2_lookup_r _ _ _ _ _ Hall Hi) as (raw & Hraw & Hok).
      exists raw. split; [|done]. by eapply list_elem_of_lookup_2.
    + pose proof (insert_all_length_le cleaned []) as Hle.
      rewrite (Forall2_length _ _ _ Hall). simpl in Hle. lia.
    + apply insert_all_NoDup, NoDup_nil_2.
Qed.


(** X20: whenever what is thrown inside is an [Error] object (by the
    transport, by [query] itself, or by the post-processor),
    [completions] does not throw: it returns the empty set and prints
    exactly one warning, which carries that error's message. *)
Theorem completions_survives_error_objects this prompt temperature p
    (e : JsError) :
  attempt trimCompletion (axios_post (apiEndpoint this)
             (request_of this prompt (only_temperature temperature))
             (query_headers this) (world p)).1 = inl (Raised e) →
  (completions axios_post trimCompletion this prompt temperature p).1 = Ret [] ∧
  warnings
    (trace (completions axios_post trimCompletion this prompt temperature p).2)
    = warnings (trace p) ++ [lit "Failed to get completions: " ++ message e].
Proof.
  intros Hthrown. rewrite completions_run, Hthrown.
  cbn [template_message thrown_message mbind Completion_bind to_string
       fst snd trace].
  split; [done|].
  pose proof (query_warns_nothing axios_post this prompt
                (only_temperature temperature) p) as Hquiet.
  unfold warnings in *. by rewrite omap_app, Hquiet.
Qed.

End FurtherCompletions.

(** ** The entry point *)

Lemma insert_all_keeps_head (xs : list jsstring) (first : jsstring) (s : JsSet) :
  ∃ rest, insert_all xs (first :: s) = first :: rest.
Proof.
  revert s. induction xs as [|x xs IH]; intros s; simpl; [by eauto|].
  unfold set_add. case_decide; [apply IH|].
  rewrite <- app_comm_cons. apply IH.
Qed.

Lemma first_printed_insert_all (text : jsstring) (texts : list jsstring) :
  first_printed (insert_all (text :: texts) []) = text.
Proof.
  simpl. unfold set_add. case_decide as Hin; [by apply elem_of_nil in Hin|].
  simpl. by destruct (insert_all_keeps_head texts text []) as (rest & ->).
Qed.

Section FurtherMain.

Context {World : Type}.
Variable axios_post :
  jsstring → PostBody.t → Headers → World → Completion AxiosResponse * World.
Variable readFileSync_stdin : World → Completion jsstring * World.
Variable inspect : Thrown → jsstring.

Implicit Types (p : Process World) (prompt key : jsstring).

Abbreviation run_main := (main axios_post readFileSync_stdin inspect).
Abbreviation greeting := (ConsoleLog (lit "Using OpenAI GPT-4 API")).
Abbreviation only_n := ({[ "n" := JNum 1%float ]} : PostOptions).

Lemma query_never_exits (this : OpenAIModel) prompt (opts : PostOptions) p
    (code : Z) :
  (query axios_post this prompt opts p).1 ≠ Exit code.
Proof.
  rewrite query_run.
  destruct (axios_post _ _ _ _) as [[e|res] w]; simpl; [done|].
  by destruct (read_response res).
Qed.

Lemma main_exits_early p :
  env p !! "OPENAI_API_KEY" = None
  ∨ env p !! "OPENAI_API_KEY" = Some ([] : jsstring) →
  run_main p =
    (Exit 1,
     logged p [ConsoleError
                 (lit "Please set the OPENAI_API_KEY environment variable.")]).
Proof.
  intros Hkey. unfold main, try_catch. cbv [mbind M_bind].
  by rewrite (new_OpenAIModel_exits ∅ p Hkey).
Qed.

(** One run of the entry point once the credential is there. *)
Lemma main_with_credential p key :
  env p !! "OPENAI_API_KEY" = Some key →
  key ≠ [] →
  run_main p =
    match readFileSync_stdin (world p) with
    | (inl e, w) =>
        (Exit 1, logged (moved (logged p [greeting]) w)
                        [ConsoleError (inspect e)])
    | (inr prompt, w) =>
        match query axios_post (built key ∅) prompt only_n
                    (moved (logged p [greeting]) w) with
        | (Ret responses, q) =>
            (Ret (), logged q [ConsoleLog (first_printed responses)])
        | (Throw e, q) => (Exit 1, logged q [ConsoleError (inspect e)])
        | (Exit code, q) => (Exit code, q)
        end
    end.
Proof.
  intros Hkey Hne. unfold main, try_catch. cbv [mbind M_bind].
  rewrite (new_OpenAIModel_ok ∅ p key Hkey Hne).
  unfold fs_readFileSync_stdin. simpl.
  destruct (readFileSync_stdin (world p)) as [[e|prompt] w]; simpl; [done|].
  fold (moved (logged p [greeting]) w).
  by destruct (query _ _ _ _ _) as [[responses|e|code] q].
Qed.

Lemma bodies_posted_console (t : list Event) (line : Event) :
  post_of line = None → bodies_posted (t ++ [line]) = bodies_posted t.
Proof.
  intros Hline. unfold bodies_posted. rewrite omap_app. simpl.
  rewrite Hline. by rewrite app_nil_r.
Qed.

(** What the entry point's one call of [query] does to the trace, and how
    the run ends after it. *)
Lemma main_after_query p key prompt (w1 : World) :
  env p !! "OPENAI_API_KEY" = Some key →
  key ≠ [] →
  readFileSync_stdin (world p) = (inr prompt, w1) →
  let asked := query axios_post (built key ∅) prompt only_n
                     (moved (logged p [greeting]) w1) in
  request_of (built key ∅) prompt only_n = main_body prompt ∧
  bodies_posted (trace asked.2)
    = bodies_posted (trace p) ++ [request_of (built key ∅) prompt only_n] ∧
  console_output (trace asked.2) = console_output (trace p) ++ [greeting] ∧
  run_main p =
    match asked with
    | (Ret responses, q) =>
        (Ret (), logged q [ConsoleLog (first_printed responses)])
    | (Throw e, q) => (Exit 1, logged q [ConsoleError (inspect e)])
    | (Exit code, q) => (Exit code, q)
    end.
Proof.
  intros Hkey Hne Hstdin asked. split_and!.
  - reflexivity.
  - unfold asked. rewrite query_posts_once. cbn [moved logged trace].
    by rewrite bodies_posted_console.
  - unfold asked. rewrite query_run.
    destruct (axios_post _ _ _ _) as [[e|res] w];
      cbn [snd moved logged trace];
      unfold console_output; rewrite !omap_app; cbn [omap];
      by rewrite ?app_nil_r.
  - by rewrite (main_with_credential p key Hkey Hne), Hstdin.
Qed.

(** X13: the entry point never ends with an uncaught error: it ends
    normally, or it ends the process with exit code 1; and it sends at
    most one request. *)
Theorem main_ends_normally_or_with_exit_1 p :
  ((run_main p).1 = Ret () ∨ (run_main p).1 = Exit 1) ∧
  (length (bodies_posted (trace (run_main p).2))
   ≤ length (bodies_posted (trace p)) + 1)%nat.
Proof.
  destruct (env p !! "OPENAI_API_KEY") as [[|c key]|] eqn:Hkey.
  - rewrite main_exits_early by by right. simpl. split; [by right|].
    rewrite bodies_posted_console by done. lia.
  - rewrite (main_with_credential p (c :: key)) by done.
    destruct (readFileSync_stdin (world p)) as [[e|prompt] w]; simpl.
    { split; [by right|]. rewrite !bodies_posted_console by done. lia. }
    pose proof (query_never_exits (built (c :: key) ∅) prompt only_n
                  (moved (logged p [greeting]) w)) as Hno.
    pose proof (query_posts_once axios_post (built (c :: key) ∅) prompt only_n
                  (moved (logged p [greeting]) w)) as Hposts.
    simpl in Hposts. rewrite bodies_posted_console in Hposts by done.
    destruct (query _ _ _ _ _) as [[responses|e|code] q]; simpl in *.
    + split; [by left|]. rewrite bodies_posted_console by done.
      rewrite Hposts, length_app. simpl. lia.
    + split; [by right|]. rewrite bodies_posted_console by done.
      rewrite Hposts, length_app. simpl. lia.
    + by destruct (Hno code).
  - rewrite main_exits_early by by left. simpl. split; [by right|].
    rewrite bodies_posted_console by done. lia.
Qed.

(** X14: without a usable credential the entry point prints the
    constructor's diagnostic, and only that, and exits with code 1:
    standard input is not read and nothing is sent. *)
Theorem main_without_credential p :
  env p !! "OPENAI_API_KEY" = None
  ∨ env p !! "OPENAI_API_KEY" = Some ([] : jsstring) →
  (run_main p).1 = Exit 1 ∧
  world (run_main p).2 = world p ∧
  bodies_posted (trace (run_main p).2) = bodies_posted (trace p) ∧
  console_output (trace (run_main p).2) =
    console_output (trace p)
      ++ [ConsoleError
            (lit "Please set the OPENAI_API_KEY environment variable.")].
Proof.
  intros Hkey. rewrite (main_exits_early p Hkey). simpl. split_and!; try done.
  - by rewrite bodies_posted_console.
  - unfold console_output. by rewrite omap_app.
Qed.

(** X15: with a credential, a prompt on standard input and a 200 response
    whose choices are well-formed, the entry point sends the prompt with
    the default options and [n] = 1, prints the trimmed content of the
    first choice, and ends normally. *)
Theorem main_prints_first_completion p key prompt (w1 w2 : World)
    (res : AxiosResponse) (props : gmap string JsVal) (choice : JsVal)
    (choices : list JsVal) (text : jsstring) (texts : list jsstring) :
  env p !! "OPENAI_API_KEY" = Some key →
  key ≠ [] →
  readFileSync_stdin (world p) = (inr prompt, w1) →
  axios_post (lit "https://api.openai.com/v1/chat/completions")
             (main_body prompt)
             {| Content_Type := lit "application/json";
                Authorization := lit "Bearer " ++ key |} w1 = (inr res, w2) →
  status res = 200 →
  data res = JObj props →
  props !! "choices" = Some (JArr (choice :: choices)) →
  has_content choice text →
  Forall2 has_content choices texts →
  (run_main p).1 = Ret () ∧
  bodies_posted (trace (run_main p).2)
    = bodies_posted (trace p) ++ [main_body prompt] ∧
  console_output (trace (run_main p).2)
    = console_output (trace p) ++ [greeting; ConsoleLog (trim text)].
Proof.
  intros Hkey Hne Hstdin Hpost Hs Hd Hc Hfirst Hrest.
  assert (read_response res
          = inr (insert_all (trim <$> text :: texts) [])) as Hread.
  { apply read_response_inr. split_and!; [done|by rewrite Hd|].
    exists (text :: texts). split; [|done].
    exists (JArr (choice :: choices)). split.
    - rewrite Hd. simpl. by rewrite Hc.
    - right. exists (choice :: choices). by split; [|constructor]. }
  destruct (main_after_query p key prompt w1 Hkey Hne Hstdin)
    as (Hbody & Hposts & Hquiet & Hrun).
  pose proof (query_answered axios_post (built key ∅) prompt only_n
                (moved (logged p [greeting]) w1) res w2 Hpost) as Hout.
  rewrite Hread in Hout. cbn [outcome] in Hout.
  rewrite Hrun.
  destruct (query _ _ _ _ _) as [out q]. cbn [fst snd] in *. subst out.
  cbn [fst snd logged trace]. split_and!.
  - done.
  - rewrite bodies_posted_console by done. by rewrite Hposts, Hbody.
  - rewrite fmap_cons, first_printed_insert_all.
    unfold console_output in *. rewrite omap_app, Hquiet. cbn [omap].
    by rewrite <- app_assoc.
Qed.

(** X16: when the 200 response has no choices, the entry point still ends
    normally, and what it prints is the word [undefined]. *)
Theorem main_prints_undefined_without_choices p key prompt (w1 w2 : World)
    (res : AxiosResponse) :
  env p !! "OPENAI_API_KEY" = Some key →
  key ≠ [] →
  readFileSync_stdin (world p) = (inr prompt, w1) →
  axios_post (lit "https://api.openai.com/v1/chat/completions")
             (main_body prompt)
             {| Content_Type := lit "application/json";
                Authorization := lit "Bearer " ++ key |} w1 = (inr res, w2) →
  status res = 200 →
  truthy (data res) = true →
  lacks_choices (data res) →
  (run_main p).1 = Ret () ∧
  console_output (trace (run_main p).2)
    = console_output (trace p) ++ [greeting; ConsoleLog (lit "undefined")].
Proof.
  intros Hkey Hne Hstdin Hpost Hs Hd Hnone.
  assert (read_response res = inr []) as Hread.
  { apply read_response_inr. split_and!; [done|done|].
    exists []. split; [|done]. exists JUndefined.
    split; [by apply get_prop_lacks_choices|by left]. }
  destruct (main_after_query p key prompt w1 Hkey Hne Hstdin)
    as (Hbody & Hposts & Hquiet & Hrun).
  pose proof (query_answered axios_post (built key ∅) prompt only_n
                (moved (logged p [greeting]) w1) res w2 Hpost) as Hout.
  rewrite Hread in Hout. cbn [outcome] in Hout.
  rewrite Hrun.
  destruct (query _ _ _ _ _) as [out q]. cbn [fst snd] in *. subst out.
  cbn [fst snd logged trace first_printed]. split; [done|].
  unfold console_output in *. rewrite omap_app, Hquiet. cbn [omap].
  by rewrite <- app_assoc.
Qed.

(** X17: whatever error [query] throws (a rejection of the transport, a
    refused status, an empty or unreadable payload), the entry point
    prints that error on the error stream and exits with code 1, having
    sent its one request. *)
Theorem main_reports_query_failure p key prompt (w1 : World) (e : Thrown) :
  env p !! "OPENAI_API_KEY" = Some key →
  key ≠ [] →
  readFileSync_stdin (world p) = (inr prompt, w1) →
  (query axios_post (built key ∅) prompt {[ "n" := JNum 1%float ]}
         (moved (logged p [greeting]) w1)).1 = Throw e →
  (run_main p).1 = Exit 1 ∧
  bodies_posted (trace (run_main p).2)
    = bodies_posted (trace p) ++ [main_body prompt] ∧
  console_output (trace (run_main p).2)
    = console_output (trace p) ++ [greeting; ConsoleError (inspect e)].
Proof.
  intros Hkey Hne Hstdin Hout.
  destruct (main_after_query p key prompt w1 Hkey Hne Hstdin)
    as (Hbody & Hposts & Hquiet & Hrun).
  rewrite Hrun.
  destruct (query _ _ _ _ _) as [out q]. cbn [fst snd] in *. subst out.
  cbn [fst snd logged trace]. split_and!.
  - done.
  - rewrite bodies_posted_console by done. by rewrite Hposts, Hbody.
  - unfold console_output in *. rewrite omap_app, Hquiet. cbn [omap].
    by rewrite <- app_assoc.
Qed.

(** X18: when standard input cannot be read, the entry point prints the
    error and exits with code 1 without sending anything. *)
Theorem main_reports_stdin_failure p key (w1 : World) (e : Thrown) :
  env p !! "OPENAI_API_KEY" = Some key →
  key ≠ [] →
  readFileSync_stdin (world p) = (inl e, w1) →
  (run_main p).1 = Exit 1 ∧
  bodies_posted (trace (run_main p).2) = bodies_posted (trace p) ∧
  console_output (trace (run_main p).2)
    = console_output (trace p) ++ [greeting; ConsoleError (inspect e)].
Proof.
  intros Hkey Hne Hstdin.
  rewrite (main_with_credential p key Hkey Hne), Hstdin.
  cbn [fst snd logged moved trace]. split_and!.
  - done.
  - by rewrite !bodies_posted_console.
  - unfold console_output. rewrite !omap_app. cbn [omap].
    by rewrite <- app_assoc.
Qed.

End FurtherMain.

(** ** Further concrete runs *)

Lemma query_hi_returns_exactly_when :
  (query Stub.axios_post (Stub.model ∅) (lit "Say hi") ∅ once).1
    = Ret [lit "hi"] ↔
  status {| status := 200; statusText := lit "OK"; data := hi_payload |} = 200 ∧
  truthy (data {| status := 200; statusText := lit "OK"; data := hi_payload |})
    = true ∧
  ∃ texts,
    payload_texts
      (data {| status := 200; statusText := lit "OK"; data := hi_payload |})
      texts ∧
    [lit "hi"] = insert_all (trim <$> texts) [].
Proof.
  apply (query_returns_exactly_when Stub.axios_post (Stub.model ∅)
           (lit "Say hi") ∅ once
           {| status := 200; statusText := lit "OK"; data := hi_payload |} []
           [lit "hi"]).
  reflexivity.
Defined.

Lemma query_busy_error_kind :
  (status busy ≠ 200 ∧
   Raised
     (Error (lit "Request failed with status 429 and message Too Many Requests"))
   = Error (lit "Request failed with status " ++ lit (pretty (status busy))
            ++ lit " and message " ++ statusText busy))
  ∨ (status busy = 200 ∧ truthy (data busy) = false ∧
     Raised
       (Error (lit "Request failed with status 429 and message Too Many Requests"))
     = Error (lit "Response data is empty"))
  ∨ (status busy = 200 ∧ truthy (data busy) = true ∧
     (∃ e : JsError,
        Raised
          (Error (lit "Request failed with status 429 and message Too Many Requests"))
        = Raised e ∧
        err_name e = "TypeError") ∧
     ¬ ∃ texts, payload_texts (data busy) texts).
Proof.
  apply (query_error_kinds Stub.axios_post (Stub.model ∅) (lit "Say hi") ∅
           (Stub.start ∅ [inr busy]) busy []
           (Raised (Error (lit "Request failed with status 429 and message Too Many Requests")))).
  - reflexivity.
  - reflexivity.
Defined.

Lemma query_mixed_payload_throws :
  ∃ e : JsError,
    (query Stub.axios_post (Stub.model ∅) (lit "Say hi") ∅
           (Stub.start ∅ [Stub.response 200 "OK" mixed_payload])).1 = Throw e ∧
    err_name e = "TypeError".
Proof.
  apply (query_malformed_choice_discards_all Stub.axios_post (Stub.model ∅)
           (lit "Say hi") ∅
           (Stub.start ∅ [Stub.response 200 "OK" mixed_payload])
           {| status := 200; statusText := lit "OK"; data := mixed_payload |} []
           {[ "choices" := JArr [Stub.choice "ok"; bare_choice] ]}
           [Stub.choice "ok"; bare_choice] bare_choice).
  - reflexivity.
  - reflexivity.
  - reflexivity.
  - reflexivity.
  - apply list_elem_of_further, list_elem_of_here.
  - intros text Hc. inversion Hc as [props mprops text' Hm Ht Hprops].
    subst. discriminate Hm.
Defined.

Lemma query_null_choices_is_empty :
  (query Stub.axios_post (Stub.model ∅) (lit "Say hi") ∅
         (Stub.start ∅ [Stub.response 200 "OK" null_choices_payload])).1
    = Ret [].
Proof.
  apply (query_falsy_choices_is_empty Stub.axios_post (Stub.model ∅)
           (lit "Say hi") ∅
           (Stub.start ∅ [Stub.response 200 "OK" null_choices_payload])
           {| status := 200; statusText := lit "OK";
              data := null_choices_payload |} []
           {[ "choices" := JNull ]} JNull); reflexivity.
Defined.

Lemma query_hi_is_trimmed :
  Forall trimmed [lit "hi"] ∧ NoDup [lit "hi"].
Proof.
  apply (query_results_are_trimmed Stub.axios_post (Stub.model ∅)
           (lit "Say hi") ∅ once [lit "hi"]).
  reflexivity.
Defined.

Lemma constructed_model_posts_sk_test :
  ∃ (body : PostBody.t) (out : Outcome JsSet) p',
    (new_OpenAIModel ∅ ≫=
       λ model, query Stub.axios_post model (lit "Say hi") ∅) ready
      = (out, p') ∧
    requests_sent (trace p') =
      requests_sent (trace ready)
        ++ [(lit "https://api.openai.com/v1/chat/completions", body,
             {| Content_Type := lit "application/json";
                Authorization := lit "Bearer " ++ lit "sk-test" |})] ∧
    PostBody.model body = lit "gpt-4" ∧
    PostBody.messages body
      = [ {| role := lit "user"; content := lit "Say hi" |} ].
Proof.
  apply (constructed_model_posts_with_credential Stub.axios_post ∅
           (lit "Say hi") ∅ ready (lit "sk-test")).
  - reflexivity.
  - discriminate.
Defined.

Lemma completions_drops_ok_with_bad :
  completions Stub.axios_post picky (Stub.model ∅) (lit "Say hi") 0.5%float
              ok_then_bad =
    (Ret [],
     logged (query Stub.axios_post (Stub.model ∅) (lit "Say hi")
                   (only_temperature 0.5%float) ok_then_bad).2
            [ConsoleWarn (lit "Failed to get completions: "
                          ++ message (Error (lit "Unexpected token")))]).
Proof.
  apply (completions_all_or_nothing Stub.axios_post picky (Stub.model ∅)
           (lit "Say hi") 0.5%float ok_then_bad [lit "ok"] [] [lit "ok"]
           (lit "bad") (Error (lit "Unexpected token"))).
  - reflexivity.
  - repeat constructor.
  - reflexivity.
Defined.

Lemma completions_reports_429 :
  (completions Stub.axios_post Stub.keep (Stub.model ∅) (lit "Say hi")
               0.5%float (Stub.start ∅ [inr busy])).1 = Ret [] ∧
  warnings
    (trace (completions Stub.axios_post Stub.keep (Stub.model ∅) (lit "Say hi")
                        0.5%float (Stub.start ∅ [inr busy])).2)
    = warnings (trace (Stub.start ∅ [inr busy]))
        ++ [lit "Failed to get completions: "
            ++ lit "Request failed with status " ++ lit (pretty (status busy))
            ++ lit " and message " ++ statusText busy].
Proof.
  apply (completions_reports_status Stub.axios_post Stub.keep (Stub.model ∅)
           (lit "Say hi") 0.5%float (Stub.start ∅ [inr busy]) busy []).
  - reflexivity.
  - discriminate.
Defined.

Lemma completions_of_hi_are_postprocessed :
  (∀ x, x ∈ [lit "hi"] →
        ∃ raw, raw ∈ [lit "hi"] ∧ Stub.keep raw = inr x) ∧
  (length [lit "hi"] ≤ length [lit "hi"])%nat ∧
  NoDup [lit "hi"].
Proof.
  apply (completions_results_are_postprocessed Stub.axios_post Stub.keep
           (Stub.model ∅) (lit "Say hi") 0.5%float once [lit "hi"] [lit "hi"]
           (query Stub.axios_post (Stub.model ∅) (lit "Say hi")
                  (only_temperature 0.5%float) once).2).
  - reflexivity.
  - reflexivity.
Defined.

Lemma main_exits_in_empty_environment :
  (main Stub.axios_post (stdin_holds "Say hi") show_error bare).1 = Exit 1 ∧
  world (main Stub.axios_post (stdin_holds "Say hi") show_error bare).2
    = world bare ∧
  bodies_posted
    (trace (main Stub.axios_post (stdin_holds "Say hi") show_error bare).2)
    = bodies_posted (trace bare) ∧
  console_output
    (trace (main Stub.axios_post (stdin_holds "Say hi") show_error bare).2)
    = console_output (trace bare)
        ++ [ConsoleError
              (lit "Please set the OPENAI_API_KEY environment variable.")].
Proof.
  apply (main_without_credential Stub.axios_post (stdin_holds "Say hi")
           show_error bare).
  left. reflexivity.
Defined.

Lemma main_prints_hi :
  (main Stub.axios_post (stdin_holds "Say hi") show_error ready).1 = Ret () ∧
  bodies_posted
    (trace (main Stub.axios_post (stdin_holds "Say hi") show_error ready).2)
    = bodies_posted (trace ready) ++ [main_body (lit "Say hi")] ∧
  console_output
    (trace (main Stub.axios_post (stdin_holds "Say hi") show_error ready).2)
    = console_output (trace ready)
        ++ [ConsoleLog (lit "Using OpenAI GPT-4 API");
            ConsoleLog (trim (lit " hi  "))].
Proof.
  apply (main_prints_first_completion Stub.axios_post (stdin_holds "Say hi")
           show_error ready (lit "sk-test") (lit "Say hi")
           [Stub.response 200 "OK" hi_payload] []
           {| status := 200; statusText := lit "OK"; data := hi_payload |}
           {[ "choices" := JArr [Stub.choice " hi  "; Stub.choice "hi"] ]}
           (Stub.choice " hi  ") [Stub.choice "hi"] (lit " hi  ") [lit "hi"]).
  - reflexivity.
  - discriminate.
  - reflexivity.
  - reflexivity.
  - reflexivity.
  - reflexivity.
  - reflexivity.
  - apply stub_choice_has_content.
  - repeat constructor; apply stub_choice_has_content.
Defined.

Lemma main_prints_undefined :
  (main Stub.axios_post (stdin_holds "Say hi") show_error ready_bare).1
    = Ret () ∧
  console_output
    (trace (main Stub.axios_post (stdin_holds "Say hi") show_error
                 ready_bare).2)
    = console_output (trace ready_bare)
        ++ [ConsoleLog (lit "Using OpenAI GPT-4 API");
            ConsoleLog (lit "undefined")].
Proof.
  apply (main_prints_undefined_without_choices Stub.axios_post
           (stdin_holds "Say hi") show_error ready_bare (lit "sk-test")
           (lit "Say hi") [Stub.response 200 "OK" bare_payload] []
           {| status := 200; statusText := lit "OK"; data := bare_payload |}).
  - reflexivity.
  - discriminate.
  - reflexivity.
  - reflexivity.
  - reflexivity.
  - reflexivity.
  - reflexivity.
Defined.

Lemma main_reports_network_error :
  (main Stub.axios_post (stdin_holds "Say hi") show_error offline).1 = Exit 1 ∧
  bodies_posted
    (trace (main Stub.axios_post (stdin_holds "Say hi") show_error offline).2)
    = bodies_posted (trace offline) ++ [main_body (lit "Say hi")] ∧
  console_output
    (trace (main Stub.axios_post (stdin_holds "Say hi") show_error offline).2)
    = console_output (trace offline)
        ++ [ConsoleLog (lit "Using OpenAI GPT-4 API");
            ConsoleError (show_error (Error (lit "Network Error")))].
Proof.
  apply (main_reports_query_failure Stub.axios_post (stdin_holds "Say hi")
           show_error offline (lit "sk-test") (lit "Say hi") []
           (Error (lit "Network Error"))).
  - reflexivity.
  - discriminate.
  - reflexivity.
  - reflexivity.
Defined.

Lemma main_reports_closed_stdin :
  (main Stub.axios_post stdin_closed show_error ready).1 = Exit 1 ∧
  bodies_posted (trace (main Stub.axios_post stdin_closed show_error ready).2)
    = bodies_posted (trace ready) ∧
  console_output (trace (main Stub.axios_post stdin_closed show_error ready).2)
    = console_output (trace ready)
        ++ [ConsoleLog (lit "Using OpenAI GPT-4 API");
            ConsoleError
              (show_error
                 (Error (lit "EAGAIN: resource temporarily unavailable, read")))].
Proof.
  apply (main_reports_stdin_failure Stub.axios_post stdin_closed show_error
           ready (lit "sk-test") [Stub.response 200 "OK" hi_payload]
           (Error (lit "EAGAIN: resource temporarily unavailable, read"))).
  - reflexivity.
  - discriminate.
  - reflexivity.
Defined.

(** ** What is thrown need not be an error object *)

(** C3 (a defect of the code): when the transport's promise is rejected
    with [undefined], [completions] itself throws and prints no warning:
    in its handler [err.message] is read off a value that has no
    properties. *)
Theorem completions_throws_on_rejected_undefined :
  (completions Stub.axios_post Stub.keep (Stub.model ∅) (lit "Say hi")
               0.5%float rejecting_undefined).1
    = Throw (TypeError
               (lit "Cannot read properties of undefined (reading 'message')")) ∧
  warnings
    (trace (completions Stub.axios_post Stub.keep (Stub.model ∅) (lit "Say hi")
                        0.5%float rejecting_undefined).2) = [].
Proof. split; vm_compute; reflexivity. Qed.

(** A thrown string has no [message]: the warning reads [undefined]. *)
Example completions_warns_undefined_for_thrown_text :
  let after :=
    completions Stub.axios_post Stub.keep (Stub.model ∅) (lit "Say hi")
                0.5%float rejecting_text in
  after.1 = Ret [] ∧
  warnings (trace after.2) = [lit "Failed to get completions: undefined"].
Proof. split; vm_compute; reflexivity. Qed.

(** The text of the runtime's error when [choices] cannot be iterated. *)
Example query_numeric_choices_throws :
  (query Stub.axios_post (Stub.model ∅) (lit "Say hi") ∅
         (Stub.start ∅ [Stub.response 200 "OK" numeric_choices_payload])).1
    = Throw (TypeError
               (lit "number 5 is not iterable (cannot read property Symbol(Symbol.iterator))")).
Proof. vm_compute. reflexivity. Qed.

Example number_to_string_samples :
  number_to_string 0.5%float = lit "0.5" ∧
  number_to_string 100%float = lit "100" ∧
  number_to_string (-2.5)%float = lit "-2.5" ∧
  number_to_string 1e21%float = lit "1e+21" ∧
  number_to_string 0x1p-20%float = lit "9.5367431640625e-7" ∧
  number_to_string 0x1p+60%float = lit "1152921504606847000" ∧
  number_to_string (0 / 0)%float = lit "NaN".
Proof. repeat split; vm_compute; reflexivity. Qed.

Example to_string_samples :
  to_string (JArr [JNum 1%float; JNull; JStr (lit "a"); JArr [JBool true]])
    = inr (lit "1,,a,true") ∧
  to_string (JObj ∅) = inr (lit "[object Object]").
Proof. split; vm_compute; reflexivity. Qed.

Lemma completions_survives_network_error :
  (completions Stub.axios_post Stub.keep (Stub.model ∅) (lit "Say hi")
               0.5%float bare).1 = Ret [] ∧
  warnings
    (trace (completions Stub.axios_post Stub.keep (Stub.model ∅) (lit "Say hi")
                        0.5%float bare).2)
    = warnings (trace bare)
        ++ [lit "Failed to get completions: "
            ++ message (Error (lit "Network Error"))].
Proof.
  apply (completions_survives_error_objects Stub.axios_post Stub.keep
           (Stub.model ∅) (lit "Say hi") 0.5%float bare
           (Error (lit "Network Error"))).
  reflexivity.
Defined.
